(** * multicam: per-device capture worker and batch read

    A shallow embedding of [src/multicam.c]: the [Camera] initialiser, the
    capture worker [cam_read_worker], the single-device read [camera_read]
    and the batch read [camsys_read].

    The V4L2 driver and libyuv are collaborators outside the repository.
    Their calls are recorded as events, and what they return is supplied by
    an oracle, one per device. *)

From Stdlib Require Import ZArith List String Ascii Bool Lia DecimalString.
Import ListNotations.
Local Open Scope Z_scope.

(** ** C integers *)

Module CInt.

Definition INT_MIN : Z := - 2 ^ 31.
Definition INT_MAX : Z := 2 ^ 31 - 1.

(** The value an [int] holds after a conversion or an arithmetic result
    that does not fit: two's-complement wrap-around on 32 bits. *)
Definition int32 (x : Z) : Z := (x + 2 ^ 31) mod 2 ^ 32 - 2 ^ 31.

Definition in_int (x : Z) : Prop := INT_MIN <= x <= INT_MAX.

Definition mul (a b : Z) : Z := int32 (a * b).

(** [printf]'s [%i]. *)
Definition fmt_i (x : Z) : string := NilZero.string_of_int (Z.to_int x).

End CInt.
Export CInt.

(** ** Python-side values *)

Inductive PyExc : Type :=
| PyExc_ValueError
| PyExc_RuntimeError
| PyExc_TypeError
| PyExc_AttributeError
| PyExc_IndexError
| PyExc_MemoryError.

(** The pending exception: its type and its formatted message. *)
Definition PyErr : Type := (PyExc * string)%type.

(** The element types of arrays, as far as needed to tell them apart. *)
Inductive npy_type : Type := NPY_INT8 | NPY_UINT8 | NPY_FLOAT32.

Record PyArrayObject : Type := mkArray {
  nd : nat;
  dims : list Z;
  typenum : npy_type;
  owndata : bool
}.

(** [PyArray_New] of the array library, by what it is given: the number
    of dimensions, their extents, the element type, the data pointer
    ([None] for [NULL]) and whether the flags ask for
    [NPY_ARRAY_OWNDATA]. Given a data pointer the library uses that
    memory and clears the flag, whatever the flags ask for; given none
    it allocates the data itself and owns it. *)
Definition PyArray_New (n : nat) (ds : list Z) (t : npy_type)
    (data : option Z) (ask_owndata : bool) : PyArrayObject :=
  mkArray n ds t (match data with Some _ => false | None => true end).

(** ** Format codes *)

(** The value of a [char] holding the byte [c]: whether plain [char] is
    signed depends on the platform, so it is a parameter. *)
Definition char_value (char_signed : bool) (c : ascii) : Z :=
  let n := Z.of_nat (nat_of_ascii c) in
  if char_signed && (128 <=? n) then n - 256 else n.

(** [toupper] of the C library the module runs on, in the C locale, on
    the [int] it is passed. Lower-case letters are moved to upper case.
    The library indexes its table from -128, so that the values -128 to -2,
    which a signed [char] holds for the bytes 128 to 254, are answered as
    those bytes are: with the byte itself, from 128 to 254. [EOF] (-1) and
    every other value are returned as they are. *)
Definition toupper (c : Z) : Z :=
  if (97 <=? c) && (c <=? 122) then c - 32
  else if (-128 <=? c) && (c <=? -2) then c + 256
  else c.

(** The byte of a character, from 0 to 255. *)
Definition code (c : ascii) : Z := Z.of_nat (nat_of_ascii c).

(** Conversion to [uint32_t]. *)
Definition u32 (x : Z) : Z := x mod 2 ^ 32.

(** Modelled from the spec: the [FOURCC] macro comes from [libyuv.h], which
    is not part of the sources. The four characters are packed into a 4-byte
    tag in a fixed byte order: each is converted to an unsigned 32-bit
    value, the first is put in the lowest byte, the fourth in the
    highest. *)
Definition FOURCC (a b c d : Z) : Z :=
  Z.lor (Z.lor (u32 a) (u32 (Z.shiftl (u32 b) 8)))
        (Z.lor (u32 (Z.shiftl (u32 c) 16)) (u32 (Z.shiftl (u32 d) 24))).

(** Byte [k] of a tag, [k] from 0 (lowest). *)
Definition tag_byte (t : Z) (k : Z) : Z := Z.land (Z.shiftr t (8 * k)) 255.

(** The character of a string at an index; [NUL] past the end, as the
    terminator of a C string. *)
Definition char_at (s : string) (k : nat) : ascii :=
  match String.get k s with Some c => c | None => zero end.

Section FormatCode.

(** The packing is a parameter of the macro below, as the macro's
    definition lives in the library's header. *)
Variable pack : Z -> Z -> Z -> Z -> Z.
Variable char_signed : bool.

(** [#define STR2FOURCC(s) FOURCC(toupper(s[0]),...,toupper(s[3]))] *)
Definition STR2FOURCC (s : string) : Z :=
    pack (toupper (char_value char_signed (char_at s 0)))
         (toupper (char_value char_signed (char_at s 1)))
         (toupper (char_value char_signed (char_at s 2)))
         (toupper (char_value char_signed (char_at s 3))).

End FormatCode.

(** ** The camera object *)

Record v4l2_mapped : Type := mkMapped { start : Z; length_ : Z }.

Record CameraObject : Type := mkCamera {
  device : option string;
  width : Z;
  height : Z;
  fps : Z;
  format : option string;
  fourcc : Z;
  buffers : option (list v4l2_mapped);
  n_buffers : Z;
  fd : Z
}.

(** What [PyArg_ParseTupleAndKeywords] with ["O|(ii)Is"] extracted: the
    device is required, the rest is optional and left untouched when
    absent. *)
Record InitArgs : Type := mkInitArgs {
  arg_device : string;
  arg_size : option (Z * Z);
  arg_fps : option Z;
  arg_format : option string
}.

(** ** Events on the collaborators *)

Inductive Event : Type :=
| EvDQBUF (fd : Z)
| EvConvertToARGB (sample_index : Z) (dst_stride w h : Z) (tag : Z)
| EvQBUF (fd : Z) (index : Z)
| EvARGBToRAW (src_stride : Z) (dst : Z) (dst_stride w h : Z).

Definition is_QBUF (e : Event) : bool :=
  match e with EvQBUF _ _ => true | _ => false end.

Definition is_DQBUF (e : Event) : bool :=
  match e with EvDQBUF _ => true | _ => false end.

(** ** Camera_init *)

Record InitResult : Type := mkInitResult {
  init_ret : Z;
  init_err : option PyErr;
  init_self : CameraObject;
  init_events : list Event
}.

Definition set_parsed (self : CameraObject) (a : InitArgs) : CameraObject :=
  let (w, h) := match arg_size a with
                | Some wh => wh
                | None => (width self, height self)
                end in
  mkCamera (device self) w h
           (match arg_fps a with Some f => f | None => fps self end)
           (match arg_format a with Some s => Some s | None => format self end)
           (fourcc self) (buffers self) (n_buffers self) (fd self).

Definition fourcc_msg (s : string) : string :=
  ("`" ++ s ++ "` is not a valid FOURCC")%string.

Section Init.

Variable pack : Z -> Z -> Z -> Z -> Z.
Variable char_signed : bool.

(** [args] is [None] when the argument parser fails. The parser has then
    set an error of its own, of a type that depends on the argument at
    fault, and may already have stored the optional fields that came
    before it; [None] carries neither, so this branch only records that
    an error is pending and that the call returns -1 before the device,
    the tag, the buffers or the descriptor are touched. *)
Definition Camera_init (self : CameraObject) (args : option InitArgs)
    : InitResult :=
    match args with
    | None =>
        mkInitResult (-1) (Some (PyExc_TypeError, EmptyString)) self []
    | Some a =>
        let self1 := set_parsed self a in
        let self2 :=
          mkCamera (Some (arg_device a)) (width self1) (height self1)
                   (fps self1) (format self1) (fourcc self1)
                   (buffers self1) (n_buffers self1) (fd self1) in
        match format self2 with
        | Some s =>
            if negb (Nat.eqb (String.length s) 4) then
              mkInitResult (-1) (Some (PyExc_ValueError, fourcc_msg s))
                           self2 []
            else
              mkInitResult 0 None
                (mkCamera (device self2) (width self2) (height self2)
                          (fps self2) (format self2)
                          (STR2FOURCC pack char_signed s) None 0 (-1)) []
        | None =>
            mkInitResult 0 None
              (mkCamera (device self2) (width self2) (height self2)
                        (fps self2) (format self2) 0 None 0 (-1)) []
        end
    end.

End Init.

(** ** The capture worker *)

(** What the collaborators answer during one cycle of one device: the
    return value of each call, and the index of the dequeued buffer. *)
Record Oracle : Type := mkOracle {
  dqbuf_ret : Z;
  dqbuf_index : Z;
  to_argb_ret : Z;
  qbuf_ret : Z;
  to_raw_ret : Z
}.

Record CamReadWorkerArgStruct : Type := mkWorkerArgs {
  cam : CameraObject;
  dst : Z;
  res : Z
}.

(** The worker runs its calls in sequence and leaves at the first failing
    one with a code: a computation over the trace of calls made so far that
    ends either with a value or with the code of an early [return]. *)
Module Cycle.

Definition M (A : Type) : Type := list Event -> list Event * (Z + A).

Definition ret {A} (a : A) : M A := fun tr => (tr, inr a).

Definition bind {A B} (m : M A) (k : A -> M B) : M B :=
    fun tr =>
      match m tr with
      | (tr', inl c) => (tr', inl c)
      | (tr', inr a) => k a tr'
      end.

(** Make a collaborator call: log it and hand back what it returned. *)
Definition call (e : Event) (r : Z) : M Z := fun tr => (tr ++ [e], inr r).

(** [args->res = c; return NULL;] *)
Definition leave {A} (c : Z) : M A := fun tr => (tr, inl c).

Definition run {A} (m : M A) : list Event * (Z + A) := m [].

End Cycle.

Notation "x <- m ;; k" := (Cycle.bind m (fun x => k))
  (at level 61, m at next level, right associativity).

(** [uint8_t argb[cam->height * cam->width * 4]] *)
Definition argb_size (c : CameraObject) : Z :=
  CInt.mul (CInt.mul (height c) (width c)) 4.

Definition cam_read_worker_body (o : Oracle) (args : CamReadWorkerArgStruct)
  : Cycle.M unit :=
  let c := cam args in
  r1 <- Cycle.call (EvDQBUF (fd c)) (dqbuf_ret o) ;;
  if r1 =? -1 then Cycle.leave 1 else
  r2 <- Cycle.call (EvConvertToARGB (dqbuf_index o) (CInt.mul (width c) 4)
                      (width c) (height c) (fourcc c)) (to_argb_ret o) ;;
  if negb (r2 =? 0) then Cycle.leave 2 else
  r3 <- Cycle.call (EvQBUF (fd c) (dqbuf_index o)) (qbuf_ret o) ;;
  if r3 =? -1 then Cycle.leave 3 else
  r4 <- Cycle.call (EvARGBToRAW (CInt.mul (width c) 4) (dst args)
                      (CInt.mul (width c) 3) (width c) (height c))
                   (to_raw_ret o) ;;
  if negb (r4 =? 0) then Cycle.leave 4 else
  Cycle.ret tt.

(** The worker returns nothing; its outcome is the [res] field it leaves
    in its argument. *)
Definition cam_read_worker (o : Oracle) (args : CamReadWorkerArgStruct)
  : CamReadWorkerArgStruct * list Event :=
  match Cycle.run (cam_read_worker_body o args) with
  | (tr, inl c) => (mkWorkerArgs (cam args) (dst args) c, tr)
  | (tr, inr _) => (mkWorkerArgs (cam args) (dst args) 0, tr)
  end.

Definition worker_res (o : Oracle) (args : CamReadWorkerArgStruct) : Z :=
  res (fst (cam_read_worker o args)).

Definition worker_trace (o : Oracle) (args : CamReadWorkerArgStruct)
  : list Event :=
  snd (cam_read_worker o args).

(** The bytes of the destination a conversion call addresses: [h] rows of
    [w] pixels laid out from [dst] every [dst_stride] bytes, as the
    half-open range from [fst] to [snd]. Other calls address none. *)
Definition dst_range (e : Event) : option (Z * Z) :=
  match e with
  | EvARGBToRAW _ d stride _ h => Some (d, d + h * stride)
  | _ => None
  end.


(** Byte [b] of the destination is addressed by the worker. *)
Definition addresses (tr : list Event) (b : Z) : Prop :=
  exists e lo hi, In e tr /\ dst_range e = Some (lo, hi) /\ lo <= b < hi.

(** ** The orchestrating thread *)

(** What the calling thread does with its workers and to its caller. *)
Inductive OrchEvent : Type :=
| OCreate (i : nat)
| OJoin (i : nat)
| ORaise (e : PyErr).

(** The objects and blocks a call holds and lets go of at its exit. *)
Inductive Resource : Type :=
| RThreads | RCamArgs | RCams | RWidth | RHeight | RArr.

Definition nl : string := String (ascii_of_nat 10) EmptyString.

(** The answers of the runtime and of the devices during one call: whether
    the argument tuple parses, whether the array allocation succeeds,
    whether fetching item [i] of the sequence succeeds, and what the
    collaborators of device [i] return. *)
Record World : Type := mkWorld {
  parse_ok : bool;
  alloc_ok : bool;
  getitem_ok : nat -> bool;
  oracle : nat -> Oracle
}.

(** *** Single-device read *)

Record ReadResult : Type := mkReadResult {
  read_ret : option PyArrayObject;
  read_err : option PyErr;
  read_orch : list OrchEvent;
  read_events : list Event
}.

Definition read_msg (r : Z) : string :=
  ("Reading image failed: " ++ fmt_i r ++ nl)%string.

Definition camera_read (w : World) (self : CameraObject) : ReadResult :=
  let cam_args := mkWorkerArgs self 0 0 in
  let (cam_args', tr) := cam_read_worker (oracle w 0%nat) cam_args in
  let orch := [OCreate 0; OJoin 0] in
  if negb (res cam_args' =? 0) then
    let e := (PyExc_RuntimeError, read_msg (res cam_args')) in
    mkReadResult None (Some e) (orch ++ [ORaise e]) tr
  else if alloc_ok w then
    mkReadResult
      (Some (PyArray_New 3 [height self; width self; 3] NPY_UINT8
               (Some (dst cam_args)) true))
      None orch tr
  else
    let e := (PyExc_RuntimeError, ("PyArray_NEW failed" ++ nl)%string) in
    mkReadResult None (Some e) (orch ++ [ORaise e]) tr.

(** *** Batch read *)

(** The capture system object, by the attributes the call fetches: absent
    ones are [None]. [sys_width] and [sys_height] hold what
    [PyLong_AsLong] yields for them. *)
Record CamSys : Type := mkCamSys {
  cameras : option (list CameraObject);
  sys_width : option Z;
  sys_height : option Z
}.

Record BatchResult : Type := mkBatchResult {
  batch_ret : option PyArrayObject;
  batch_err : option PyErr;
  batch_orch : list OrchEvent;
  batch_threads : list (list Event);
  batch_args : list CamReadWorkerArgStruct;
  batch_released : list Resource
}.

(** The [RETURN:] label: both blocks are freed and the three fetched
    attributes are let go of; the array is not among them. *)
Definition at_RETURN (r : option PyArrayObject) (e : option PyErr)
    (orch : list OrchEvent) (ths : list (list Event))
    (args : list CamReadWorkerArgStruct) : BatchResult :=
  mkBatchResult r e
    (match e with Some x => orch ++ [ORaise x] | None => orch end)
    ths args [RThreads; RCamArgs; RCams; RWidth; RHeight].

(** The loop that prepares the thread arguments, from index [i] on: item
    [i] gets the address [&dst[i * cam_dst_sz]]. [None] when fetching an
    item fails. *)
Fixpoint prepare_args (w : World) (cams : list CameraObject)
    (cam_dst_sz : Z) (i : nat) (n : nat)
  : option (list CamReadWorkerArgStruct) :=
  match n with
  | O => Some []
  | S n' =>
      match nth_error cams i with
      | Some c =>
          if getitem_ok w i then
            match prepare_args w cams cam_dst_sz (S i) n' with
            | Some rest =>
                Some (mkWorkerArgs c (CInt.mul (Z.of_nat i) cam_dst_sz) 0
                        :: rest)
            | None => None
            end
          else None
      | None => None
      end
  end.

(** Each thread runs the worker on its own argument, against the
    collaborators of its own device. *)
Fixpoint run_threads (w : World) (i : nat)
    (args : list CamReadWorkerArgStruct)
  : list (CamReadWorkerArgStruct * list Event) :=
  match args with
  | [] => []
  | a :: rest => cam_read_worker (oracle w i) a :: run_threads w (S i) rest
  end.

(** The loop that checks for errors, from index [i] on. *)
Fixpoint first_failure (i : nat) (args : list CamReadWorkerArgStruct)
  : option (nat * Z) :=
  match args with
  | [] => None
  | a :: rest =>
      if negb (res a =? 0) then Some (i, res a)
      else first_failure (S i) rest
  end.

Definition batch_msg (i : nat) (r : Z) : string :=
  ("Reading image from camera " ++ fmt_i (Z.of_nat i) ++ " failed: "
     ++ fmt_i r ++ nl)%string.

Definition camsys_read (w : World) (camsys : CamSys) : BatchResult :=
  if negb (parse_ok w) then
    mkBatchResult None (Some (PyExc_TypeError, EmptyString))
                  [ORaise (PyExc_TypeError, EmptyString)] [] [] []
  else
  match cameras camsys with
  | None =>
      mkBatchResult None (Some (PyExc_AttributeError, EmptyString))
                    [ORaise (PyExc_AttributeError, EmptyString)] [] [] []
  | Some cams =>
      let N := int32 (Z.of_nat (List.length cams)) in
      if N <=? 0 then
        at_RETURN None
          (Some (PyExc_ValueError, "camsys contains no cameras."%string))
          [] [] []
      else
      match sys_width camsys with
      | None => at_RETURN None (Some (PyExc_AttributeError, EmptyString))
                          [] [] []
      | Some pywidth =>
      match sys_height camsys with
      | None => at_RETURN None (Some (PyExc_AttributeError, EmptyString))
                          [] [] []
      | Some pyheight =>
          let width := int32 pywidth in
          let height := int32 pyheight in
          let cam_dst_sz := CInt.mul (CInt.mul width height) 3 in
          if negb (alloc_ok w) then
            at_RETURN None (Some (PyExc_MemoryError, EmptyString)) [] [] []
          else
          let arr := mkArray 4 [N; height; width; 3] NPY_UINT8 true in
          match prepare_args w cams cam_dst_sz 0 (Z.to_nat N) with
          | None =>
              at_RETURN None (Some (PyExc_IndexError, EmptyString)) [] [] []
          | Some cam_args =>
              let ran := run_threads w 0 cam_args in
              let cam_args' := map fst ran in
              let ths := map snd ran in
              let orch := map OCreate (seq 0 (Z.to_nat N))
                          ++ map OJoin (seq 0 (Z.to_nat N)) in
              match first_failure 0 cam_args' with
              | Some (i, r) =>
                  at_RETURN None (Some (PyExc_RuntimeError, batch_msg i r))
                            orch ths cam_args'
              | None => at_RETURN (Some arr) None orch ths cam_args'
              end
          end
      end
      end
  end.

(** ** The stages of a cycle *)

Section Stages.

Variable o : Oracle.
Variable a : CamReadWorkerArgStruct.

(** The four collaborator calls of a cycle, in program order. *)
Definition ev_dequeue : Event := EvDQBUF (fd (cam a)).
Definition ev_to_argb : Event :=
    EvConvertToARGB (dqbuf_index o) (CInt.mul (width (cam a)) 4)
                    (width (cam a)) (height (cam a)) (fourcc (cam a)).
Definition ev_requeue : Event := EvQBUF (fd (cam a)) (dqbuf_index o).
Definition ev_to_raw : Event :=
    EvARGBToRAW (CInt.mul (width (cam a)) 4) (dst a)
                (CInt.mul (width (cam a)) 3) (width (cam a)) (height (cam a)).

Definition stages : list Event :=
    [ev_dequeue; ev_to_argb; ev_requeue; ev_to_raw].

(** Whether stage [k] (from 1) is reported as failed by its
    collaborator. *)
Definition stage_failed (k : nat) : bool :=
    match k with
    | 1%nat => dqbuf_ret o =? -1
    | 2%nat => negb (to_argb_ret o =? 0)
    | 3%nat => qbuf_ret o =? -1
    | 4%nat => negb (to_raw_ret o =? 0)
    | _ => false
    end.

Definition first_failed : option nat := find stage_failed [1; 2; 3; 4]%nat.

Definition stages_run : nat :=
    match first_failed with Some k => k | None => 4%nat end.

End Stages.

(** ** Worker outcomes *)

Inductive Outcome : Type :=
| Success
| DequeueFailed
| Conversion1Failed
| RequeueFailed
| Conversion2Failed.

Definition outcome_code (x : Outcome) : Z :=
  match x with
  | Success => 0
  | DequeueFailed => 1
  | Conversion1Failed => 2
  | RequeueFailed => 3
  | Conversion2Failed => 4
  end.

(** The outcome the collaborators' answers determine: the first call, in
    program order, that reports a failure. *)
Definition outcome_of (o : Oracle) : Outcome :=
  if dqbuf_ret o =? -1 then DequeueFailed
  else if negb (to_argb_ret o =? 0) then Conversion1Failed
  else if qbuf_ret o =? -1 then RequeueFailed
  else if negb (to_raw_ret o =? 0) then Conversion2Failed
  else Success.

(** ** Sample devices and answers *)

Definition sample_cam (w h : Z) : CameraObject :=
  mkCamera (Some "/dev/video0"%string) w h 30 (Some "YUYV"%string)
           (STR2FOURCC FOURCC true "YUYV") (Some [mkMapped 0 (w * h * 2)]) 1 3.

Definition all_ok : Oracle := mkOracle 0 0 0 0 0.
Definition dequeue_fails : Oracle := mkOracle (-1) 0 0 0 0.
Definition to_argb_fails : Oracle := mkOracle 0 0 (-1) 0 0.
Definition requeue_fails : Oracle := mkOracle 0 0 0 (-1) 0.
Definition to_raw_fails : Oracle := mkOracle 0 0 0 0 (-1).

(** The object as [PyType_GenericNew] leaves it: every field zeroed. *)
Definition new_camera : CameraObject :=
  mkCamera None 0 0 0 None 0 None 0 0.

Definition init_with_format (s : string) : InitArgs :=
  mkInitArgs "/dev/video0" (Some (640, 480)) (Some 30) (Some s).

(** ** Batches that reach their workers *)

(** The thread arguments of the devices [l], numbered from [i], for a slice
    size [sz] in bytes. *)
Fixpoint slice_args (sz : Z) (i : nat) (l : list CameraObject)
  : list CamReadWorkerArgStruct :=
  match l with
  | [] => []
  | c :: rest =>
      mkWorkerArgs c (CInt.mul (Z.of_nat i) sz) 0 :: slice_args sz (S i) rest
  end.

(** The conditions under which the batch read gets as far as spawning: the
    arguments parse, the capture system has a non-empty device sequence
    [cams] and a width [W] and a height [H] that are [int]s, the array is
    allocated and every item of the sequence can be fetched. *)
Definition batch_ready (w : World) (camsys : CamSys)
    (cams : list CameraObject) (W H : Z) : Prop :=
  parse_ok w = true
  /\ cameras camsys = Some cams
  /\ cams <> []
  /\ Z.of_nat (List.length cams) <= INT_MAX
  /\ sys_width camsys = Some W /\ in_int W
  /\ sys_height camsys = Some H /\ in_int H
  /\ alloc_ok w = true
  /\ (forall i, (i < List.length cams)%nat -> getitem_ok w i = true).

(** The slice size the batch read computes. *)
Definition cam_dst_sz (W H : Z) : Z := CInt.mul (CInt.mul W H) 3.

(** The code worker [k] of a batch leaves; [None] past the last device. *)
Definition device_res (w : World) (cams : list CameraObject) (W H : Z)
    (k : nat) : option Z :=
  match nth_error cams k with
  | Some c =>
      Some (worker_res (oracle w k)
              (mkWorkerArgs c (CInt.mul (Z.of_nat k) (cam_dst_sz W H)) 0))
  | None => None
  end.

(** The calls worker [k] of a batch makes. *)
Definition device_trace (w : World) (cams : list CameraObject) (W H : Z)
    (k : nat) : option (list Event) :=
  match nth_error cams k with
  | Some c =>
      Some (worker_trace (oracle w k)
              (mkWorkerArgs c (CInt.mul (Z.of_nat k) (cam_dst_sz W H)) 0))
  | None => None
  end.

(** A world in which the runtime never fails and device [i] answers
    [orc i]. *)
Definition sample_world (orc : nat -> Oracle) : World :=
  mkWorld true true (fun _ => true) orc.

(** Device 1 fails its first conversion, the others succeed. *)
Definition device1_fails (i : nat) : Oracle :=
  match i with 1%nat => to_argb_fails | _ => all_ok end.

Definition three_cams : CamSys :=
  mkCamSys (Some [sample_cam 640 480; sample_cam 640 480; sample_cam 640 480])
           (Some 640) (Some 480).

Definition no_cams : CamSys := mkCamSys (Some []) (Some 640) (Some 480).

Definition is_create (e : OrchEvent) : bool :=
  match e with OCreate _ => true | _ => false end.

Definition is_raise (e : OrchEvent) : bool :=
  match e with ORaise _ => true | _ => false end.

(** What raising leaves in the orchestrating thread's trace. *)
Definition raised (e : option PyErr) : list OrchEvent :=
  match e with Some x => [ORaise x] | None => [] end.

(** The fan-out and fan-in over [n] threads. *)
Definition fan (n : nat) : list OrchEvent :=
  map OCreate (seq 0 n) ++ map OJoin (seq 0 n).

(** The slice of device [i]: the half-open byte range of length
    [H * W * 3] that starts at [i * H * W * 3]. *)
Definition in_slice (W H : Z) (i : nat) (b : Z) : Prop :=
  Z.of_nat i * H * W * 3 <= b < Z.of_nat i * H * W * 3 + H * W * 3.

(** A system of 2x2 frames whose first camera delivers 4x4 frames. *)
Definition mismatched_cams : CamSys :=
  mkCamSys (Some [sample_cam 4 4; sample_cam 2 2]) (Some 2) (Some 2).

(** Two cameras of 32768x32768 frames in a system of that size. *)
Definition huge_cams : CamSys :=
  mkCamSys (Some [sample_cam 32768 32768; sample_cam 32768 32768])
           (Some 32768) (Some 32768).

(** A system of 2x2 frames whose only camera delivers 1x1 frames. *)
Definition small_in_large : CamSys :=
  mkCamSys (Some [sample_cam 1 1]) (Some 2) (Some 2).

(** The [int] computations of the slice size [W * H * 3] and of the
    offset [i * cam_dst_sz] of device [i] do not overflow. *)
Definition fits_int (W H : Z) (i : nat) : Prop :=
  Z.abs (H * W * 3) <= INT_MAX
  /\ Z.of_nat i * Z.abs (H * W * 3) <= INT_MAX.

(** The bytes the second conversion of a worker spans from its
    destination: [height] rows of the stride [width * 3] it is given, both
    of the camera itself. *)
Definition own_extent (c : CameraObject) : Z :=
  height c * CInt.mul (width c) 3.

(** ** Starting and stopping a camera *)

(** The calls [camera_start] and [camera_stop] make on the driver layer
    ([v4l2.h]). *)
Inductive DriverCall : Type :=
| CallOpen
| CallInit
| CallStart
| CallStop
| CallUninit
| CallClose.

(** What each of these calls returns; 0 is their failure value. *)
Record Driver : Type := mkDriver {
  open_ret : Z;
  init_device_ret : Z;
  start_ret : Z;
  stop_ret : Z;
  uninit_ret : Z;
  close_ret : Z
}.

Definition is_close (c : DriverCall) : bool :=
  match c with CallClose => true | _ => false end.

(** The result is [true] for [Py_RETURN_NONE] and [false] for
    [return NULL]. *)
Definition camera_start (d : Driver) : bool * list DriverCall :=
  if open_ret d =? 0 then (false, [CallOpen; CallClose])
  else
    let initres := init_device_ret d in
    if initres =? 0 then (false, [CallOpen; CallInit; CallClose])
    else if start_ret d =? 0 then
      (false, [CallOpen; CallInit; CallStart; CallClose])
    else (true, [CallOpen; CallInit; CallStart]).

Definition camera_stop (d : Driver) : bool * list DriverCall :=
  if stop_ret d =? 0 then (false, [CallStop])
  else if uninit_ret d =? 0 then (false, [CallStop; CallUninit])
  else if close_ret d =? 0 then (false, [CallStop; CallUninit; CallClose])
  else (true, [CallStop; CallUninit; CallClose]).

(** ** Case of format codes *)

(** The byte [toupper] yields for a byte. *)
Definition upper_ascii (c : ascii) : ascii :=
  ascii_of_nat (Z.to_nat (toupper (code c))).

Fixpoint upcase (s : string) : string :=
  match s with
  | EmptyString => EmptyString
  | String c rest => String (upper_ascii c) (upcase rest)
  end.

(** Every character of the string is a 7-bit one. *)
Fixpoint seven_bit (s : string) : bool :=
  match s with
  | EmptyString => true
  | String c rest => (code c <? 128) && seven_bit rest
  end.

Definition with_format (a : InitArgs) (s : string) : InitArgs :=
  mkInitArgs (arg_device a) (arg_size a) (arg_fps a) (Some s).

(** ** Counting calls of a cycle *)

Definition count_ev (p : Event -> bool) (tr : list Event) : nat :=
  List.length (filter p tr).

(** The buffer index a requeue call hands back. *)
Definition requeued_index (e : Event) : option Z :=
  match e with EvQBUF _ i => Some i | _ => None end.

(** A world in which fetching item [j] of the sequence fails. *)
Definition item_fails (j : nat) (orc : nat -> Oracle) : World :=
  mkWorld true true (fun i => negb (Nat.eqb i j)) orc.

(** A capture system of one camera, with that camera's own size. *)
Definition single_cam (c : CameraObject) : CamSys :=
  mkCamSys (Some [c]) (Some (width c)) (Some (height c)).

(** A world in which arrays cannot be created. *)
Definition no_memory (orc : nat -> Oracle) : World :=
  mkWorld true false (fun _ => true) orc.

(** A code of four bytes of which two are outside ASCII. *)
Definition beyond_ascii : string :=
  String (ascii_of_nat 195) (String (ascii_of_nat 169) "12").

(** * Properties *)

(** ** C integers *)

Lemma int32_id (x : Z) : in_int x -> int32 x = x.
Proof.
  unfold in_int, INT_MIN, INT_MAX, int32; intros Hx.
  rewrite Z.mod_small; lia.
Qed.

Lemma int32_range (x : Z) : in_int (int32 x).
Proof.
  unfold in_int, INT_MIN, INT_MAX, int32.
  pose proof (Z.mod_pos_bound (x + 2 ^ 31) (2 ^ 32) ltac:(lia)); lia.
Qed.

Lemma mul_exact (a b : Z) : in_int (a * b) -> CInt.mul a b = a * b.
Proof. apply int32_id. Qed.

(** ** The worker's cycle *)

Section WorkerCycle.

Variable o : Oracle.
Variable a : CamReadWorkerArgStruct.

Lemma cam_read_worker_unfold :
    cam_read_worker o a =
    (mkWorkerArgs (cam a) (dst a)
       (match (first_failed o) with Some k => Z.of_nat k | None => 0 end),
     firstn (stages_run o) (stages o a)).
Proof.
    unfold cam_read_worker, cam_read_worker_body, stages_run, first_failed,
      Cycle.run, Cycle.bind, Cycle.call, Cycle.leave, Cycle.ret.
    cbn [find stage_failed app].
    destruct (dqbuf_ret o =? -1); [reflexivity|].
    destruct (to_argb_ret o =? 0); cbn [negb]; [|reflexivity].
    destruct (qbuf_ret o =? -1); [reflexivity|].
    destruct (to_raw_ret o =? 0); reflexivity.
Qed.

Lemma worker_res_unfold :
    worker_res o a =
    match (first_failed o) with Some k => Z.of_nat k | None => 0 end.
Proof. unfold worker_res; now rewrite cam_read_worker_unfold. Qed.

Lemma worker_trace_unfold :
    worker_trace o a = firstn (stages_run o) (stages o a).
Proof. unfold worker_trace; now rewrite cam_read_worker_unfold. Qed.

Lemma first_failed_range (k : nat) :
    (first_failed o) = Some k -> (1 <= k <= 4)%nat /\ stage_failed o k = true.
Proof.
    unfold first_failed; intros H.
    apply find_some in H; destruct H as [Hin Hf]; split; [|exact Hf].
    cbn in Hin; lia.
Qed.



Lemma worker_res_range : 0 <= worker_res o a <= 4.
Proof.
    rewrite worker_res_unfold.
    destruct (first_failed o) as [k|] eqn:E; [|lia].
    apply first_failed_range in E; lia.
Qed.

End WorkerCycle.

Lemma worker_res_outcome (o : Oracle) (a : CamReadWorkerArgStruct) :
  worker_res o a = outcome_code (outcome_of o).
Proof.
  rewrite worker_res_unfold; unfold first_failed, outcome_of.
  cbn [find stage_failed].
  destruct (dqbuf_ret o =? -1); [reflexivity|].
  destruct (negb (to_argb_ret o =? 0)); [reflexivity|].
  destruct (qbuf_ret o =? -1); [reflexivity|].
  destruct (negb (to_raw_ret o =? 0)); reflexivity.
Qed.






(** Every exit path of the worker after a dequeue that succeeded, with
    whether it carries a requeue call. *)
Lemma requeue_on_exit_paths (o : Oracle) (a : CamReadWorkerArgStruct) :
  (dqbuf_ret o =? -1) = false ->
  existsb is_QBUF (worker_trace o a) = (to_argb_ret o =? 0).
Proof.
  intros Hdq. rewrite worker_trace_unfold.
  unfold stages_run, first_failed. cbn [find stage_failed]. rewrite Hdq.
  destruct (to_argb_ret o =? 0); cbn [negb]; [|reflexivity].
  destruct (qbuf_ret o =? -1); [reflexivity|].
  destruct (to_raw_ret o =? 0); reflexivity.
Qed.

(** C2: with a dequeue that succeeds and a first conversion that fails, the
    worker leaves with code 2 after the dequeue and the conversion call
    alone: the dequeued buffer is not handed back to the device. *)
Theorem requeue_skipped_when_to_argb_fails :
  let a := mkWorkerArgs (sample_cam 640 480) 0 0 in
  worker_res to_argb_fails a = 2
  /\ worker_trace to_argb_fails a
     = [EvDQBUF 3;
        EvConvertToARGB 0 2560 640 480 (fourcc (sample_cam 640 480))]
  /\ existsb is_DQBUF (worker_trace to_argb_fails a) = true
  /\ existsb is_QBUF (worker_trace to_argb_fails a) = false.
Proof. cbv zeta. repeat split; vm_compute; reflexivity. Qed.

(** ** Format codes *)

Lemma byte_high_bits (x m : Z) :
  0 <= x < 256 -> 8 <= m -> Z.testbit x m = false.
Proof.
  intros Hx Hm.
  destruct (Z.eq_dec x 0) as [-> | Hnz]; [apply Z.testbit_0_l|].
  apply Z.bits_above_log2; [lia|].
  assert (Z.log2 x < 8) by (apply Z.log2_lt_pow2; lia). lia.
Qed.

(** Shifting a byte to position [j] and reading position [k] back. *)
Lemma byte_select (x j k : Z) :
  0 <= x < 256 -> 0 <= j -> 0 <= k ->
  Z.land (Z.shiftr (Z.shiftl x (8 * j)) (8 * k)) 255
  = if j =? k then x else 0.
Proof.
  intros Hx Hj Hk. apply Z.bits_inj'. intros n Hn.
  change 255 with (Z.ones 8).
  rewrite Z.land_spec, Z.shiftr_spec, Z.shiftl_spec by lia.
  rewrite Z.testbit_ones_nonneg by lia.
  destruct (Z.ltb_spec n 8) as [Hlt | Hge].
  - rewrite andb_true_r.
    destruct (Z.eqb_spec j k) as [-> | Hne].
    + f_equal; lia.
    + rewrite Z.testbit_0_l.
      destruct (Z.lt_ge_cases (n + 8 * k - 8 * j) 0) as [Hneg | Hpos].
      * now apply Z.testbit_neg_r.
      * apply byte_high_bits; [exact Hx | lia].
  - rewrite andb_false_r.
    destruct (j =? k); [|now rewrite Z.testbit_0_l].
    symmetry; now apply byte_high_bits.
Qed.

Lemma FOURCC_bytes (a b c d : Z) :
  0 <= a < 256 -> 0 <= b < 256 -> 0 <= c < 256 -> 0 <= d < 256 ->
  FOURCC a b c d
  = Z.lor (Z.lor a (Z.shiftl b 8)) (Z.lor (Z.shiftl c 16) (Z.shiftl d 24)).
Proof.
  intros Ha Hb Hc Hd. unfold FOURCC, u32.
  change (2 ^ 32) with 4294967296.
  rewrite (Z.mod_small a), (Z.mod_small b), (Z.mod_small c), (Z.mod_small d)
    by lia.
  rewrite !Z.shiftl_mul_pow2 by lia.
  change (2 ^ 8) with 256. change (2 ^ 16) with 65536.
  change (2 ^ 24) with 16777216.
  rewrite !Z.mod_small by lia. reflexivity.
Qed.

Lemma tag_byte_FOURCC_at (a b c d k : Z) :
  0 <= a < 256 -> 0 <= b < 256 -> 0 <= c < 256 -> 0 <= d < 256 -> 0 <= k ->
  tag_byte (FOURCC a b c d) k
  = Z.lor (Z.lor (if 0 =? k then a else 0) (if 1 =? k then b else 0))
          (Z.lor (if 2 =? k then c else 0) (if 3 =? k then d else 0)).
Proof.
  intros Ha Hb Hc Hd Hk.
  pose proof (byte_select a 0 k Ha ltac:(lia) Hk) as Ea.
  pose proof (byte_select b 1 k Hb ltac:(lia) Hk) as Eb.
  pose proof (byte_select c 2 k Hc ltac:(lia) Hk) as Ec.
  pose proof (byte_select d 3 k Hd ltac:(lia) Hk) as Ed.
  change (8 * 0) with 0 in Ea. rewrite Z.shiftl_0_r in Ea.
  change (8 * 1) with 8 in Eb. change (8 * 2) with 16 in Ec.
  change (8 * 3) with 24 in Ed.
  rewrite FOURCC_bytes by assumption. unfold tag_byte.
  rewrite !Z.shiftr_lor, !Z.land_lor_distr_l.
  now rewrite Ea, Eb, Ec, Ed.
Qed.

Lemma tag_byte_FOURCC (a b c d : Z) :
  0 <= a < 256 -> 0 <= b < 256 -> 0 <= c < 256 -> 0 <= d < 256 ->
  tag_byte (FOURCC a b c d) 0 = a /\ tag_byte (FOURCC a b c d) 1 = b
  /\ tag_byte (FOURCC a b c d) 2 = c /\ tag_byte (FOURCC a b c d) 3 = d.
Proof.
  intros Ha Hb Hc Hd.
  rewrite !tag_byte_FOURCC_at by lia. cbn [Z.eqb Pos.eqb].
  rewrite !Z.lor_0_r, !Z.lor_0_l. repeat split; reflexivity.
Qed.

Lemma code_range (c : ascii) : 0 <= code c < 256.
Proof.
  unfold code. pose proof (nat_ascii_bounded c). lia.
Qed.

(** A 7-bit character has the same value whether [char] is signed or
    not. *)
Lemma char_value_7bit (char_signed : bool) (c : ascii) :
  code c < 128 -> char_value char_signed c = code c.
Proof.
  unfold char_value, code. intros H.
  destruct (Z.leb_spec 128 (Z.of_nat (nat_of_ascii c))); [lia|].
  now rewrite andb_false_r.
Qed.

Ltac split_leb :=
  repeat match goal with
         | |- context [?a <=? ?b] => destruct (Z.leb_spec a b)
         end;
  cbn [andb].

Lemma toupper_byte (x : Z) : 0 <= x < 256 -> 0 <= toupper x < 256.
Proof.
  unfold toupper. intros H. split_leb; lia.
Qed.

(** On every byte but 255 under a signed [char], uppercasing the [char]
    value gives what uppercasing the byte gives. *)
Lemma toupper_char_value (char_signed : bool) (c : ascii) :
  (char_signed = true -> code c <> 255) ->
  toupper (char_value char_signed c) = toupper (code c).
Proof.
  unfold char_value, code. pose proof (nat_ascii_bounded c) as Hc.
  set (n := Z.of_nat (nat_of_ascii c)) in *.
  assert (Hn : 0 <= n < 256) by (unfold n; lia). clearbody n.
  intros Heof. unfold toupper.
  destruct char_signed; cbn [andb]; [|reflexivity].
  specialize (Heof eq_refl). split_leb; lia.
Qed.

Lemma Camera_init_format (pack : Z -> Z -> Z -> Z -> Z) (char_signed : bool)
    (self : CameraObject) (a : InitArgs) (s : string) :
  arg_format a = Some s ->
  Camera_init pack char_signed self (Some a) =
  if negb (Nat.eqb (String.length s) 4) then
    mkInitResult (-1) (Some (PyExc_ValueError, fourcc_msg s))
      (mkCamera (Some (arg_device a))
         (width (set_parsed self a)) (height (set_parsed self a))
         (fps (set_parsed self a)) (Some s) (fourcc self)
         (buffers self) (n_buffers self) (fd self)) []
  else
    mkInitResult 0 None
      (mkCamera (Some (arg_device a))
         (width (set_parsed self a)) (height (set_parsed self a))
         (fps (set_parsed self a)) (Some s) (STR2FOURCC pack char_signed s)
         None 0 (-1)) [].
Proof.
  intros Hf. unfold Camera_init.
  assert (Hfmt : format (set_parsed self a) = Some s).
  { unfold set_parsed. destruct (arg_size a) as [[w h]|]; cbn; now rewrite Hf. }
  assert (Hrest : fourcc (set_parsed self a) = fourcc self
                  /\ buffers (set_parsed self a) = buffers self
                  /\ n_buffers (set_parsed self a) = n_buffers self
                  /\ fd (set_parsed self a) = fd self).
  { unfold set_parsed. destruct (arg_size a) as [[w h]|]; cbn; auto. }
  destruct Hrest as (-> & -> & -> & ->).
  cbn [format device width height fps fourcc buffers n_buffers fd].
  rewrite Hfmt. destruct (negb _); reflexivity.
Qed.

(** C8: a format code whose length is not 4 makes the initialiser fail with
    a [ValueError], with no call to the device made and the file descriptor
    and tag left as they were; a code of length 4 is accepted and its tag
    is the packing of its four characters, each uppercased: byte [k] of the
    tag is character [k] uppercased. Where [char] is signed this holds for
    codes without the byte 255, which no text the argument parser hands
    over contains. *)
Theorem format_code_checked_and_packed (char_signed : bool)
    (self : CameraObject) (a : InitArgs) (s : string) :
  arg_format a = Some s ->
  let r := Camera_init FOURCC char_signed self (Some a) in
  init_events r = []
  /\ (String.length s <> 4%nat ->
        init_ret r = -1
        /\ init_err r = Some (PyExc_ValueError, fourcc_msg s)
        /\ fd (init_self r) = fd self
        /\ fourcc (init_self r) = fourcc self)
  /\ (String.length s = 4%nat ->
        init_ret r = 0 /\ init_err r = None
        /\ fourcc (init_self r)
           = FOURCC (toupper (char_value char_signed (char_at s 0)))
                    (toupper (char_value char_signed (char_at s 1)))
                    (toupper (char_value char_signed (char_at s 2)))
                    (toupper (char_value char_signed (char_at s 3)))
        /\ ((char_signed = true ->
             forall k, (k < 4)%nat -> code (char_at s k) <> 255) ->
            forall k, (k < 4)%nat ->
              tag_byte (fourcc (init_self r)) (Z.of_nat k)
              = toupper (code (char_at s k)))).
Proof.
  intros Hf r. subst r. rewrite (Camera_init_format _ _ _ _ _ Hf).
  destruct (Nat.eqb_spec (String.length s) 4) as [Hlen | Hlen]; cbn [negb].
  - split; [reflexivity|]. split; [intros Hne; contradiction|].
    intros _. cbn [init_ret init_err init_self fourcc].
    repeat split. intros Heof k Hk. unfold STR2FOURCC.
    rewrite !toupper_char_value by (intros E; apply (Heof E); lia).
    destruct (tag_byte_FOURCC
                (toupper (code (char_at s 0))) (toupper (code (char_at s 1)))
                (toupper (code (char_at s 2))) (toupper (code (char_at s 3)))
                (toupper_byte _ (code_range _)) (toupper_byte _ (code_range _))
                (toupper_byte _ (code_range _)) (toupper_byte _ (code_range _)))
      as (H0 & H1 & H2 & H3).
    destruct k as [|[|[|[|k]]]];
      [exact H0 | exact H1 | exact H2 | exact H3 | lia].
  - split; [reflexivity|]. split; [|intros He; contradiction].
    intros _. cbn [init_ret init_err init_self fd fourcc]. repeat split.
Qed.

Lemma format_code_checked_and_packed_witness :
  let r :=
    Camera_init FOURCC true new_camera (Some (init_with_format "rgb3")) in
  init_ret r = 0
  /\ map (fun k => tag_byte (fourcc (init_self r)) k) [0; 1; 2; 3]
     = map code (list_ascii_of_string "RGB3").
Proof.
  destruct (format_code_checked_and_packed true new_camera
              (init_with_format "rgb3") "rgb3" eq_refl)
    as (_ & _ & Hok).
  destruct (Hok eq_refl) as (Hret & _ & _ & Hbytes).
  split; [exact Hret|].
  assert (Heof : true = true ->
                 forall k, (k < 4)%nat -> code (char_at "rgb3" k) <> 255).
  { intros _ [|[|[|[|k]]]] Hk; vm_compute; discriminate. }
  pose proof (Hbytes Heof 0%nat ltac:(lia)) as B0.
  pose proof (Hbytes Heof 1%nat ltac:(lia)) as B1.
  pose proof (Hbytes Heof 2%nat ltac:(lia)) as B2.
  pose proof (Hbytes Heof 3%nat ltac:(lia)) as B3.
  change (Z.of_nat 0) with 0 in B0. change (Z.of_nat 1) with 1 in B1.
  change (Z.of_nat 2) with 2 in B2. change (Z.of_nat 3) with 3 in B3.
  cbn [map]. rewrite B0, B1, B2, B3. reflexivity.
Defined.

Example format_code_of_length_3_rejected :
  let r := Camera_init FOURCC true new_camera (Some (init_with_format "RGB")) in
  init_ret r = -1
  /\ init_err r = Some (PyExc_ValueError, "`RGB` is not a valid FOURCC"%string)
  /\ init_events r = [] /\ fd (init_self r) = 0.
Proof. repeat split. Qed.

(** The code made of the bytes 195, 169, 49, 50 gets the tag whose bytes
    are these four, whether [char] is signed or not. *)
Example format_code_beyond_ascii :
  fourcc (init_self (Camera_init FOURCC true new_camera
                       (Some (init_with_format beyond_ascii))))
  = 842115523
  /\ fourcc (init_self (Camera_init FOURCC false new_camera
                          (Some (init_with_format beyond_ascii))))
     = 842115523
  /\ map (tag_byte 842115523) [0; 1; 2; 3] = [195; 169; 49; 50].
Proof. repeat split. Qed.

(** ** The batch read *)

Lemma prepare_args_suffix (w : World) (sz : Z) (rest pre : list CameraObject) :
  (forall i, (i < List.length (pre ++ rest))%nat -> getitem_ok w i = true) ->
  prepare_args w (pre ++ rest) sz (List.length pre) (List.length rest)
  = Some (slice_args sz (List.length pre) rest).
Proof.
  revert pre. induction rest as [|c rest IH]; intros pre Hget; [reflexivity|].
  cbn [List.length prepare_args slice_args].
  rewrite nth_error_app2, Nat.sub_diag by lia. cbn [nth_error].
  rewrite Hget by (rewrite length_app; cbn; lia).
  assert (E : pre ++ c :: rest = (pre ++ [c]) ++ rest)
    by now rewrite <- app_assoc.
  assert (L : List.length (pre ++ [c]) = S (List.length pre))
    by (rewrite length_app; cbn; lia).
  specialize (IH (pre ++ [c])). rewrite <- E, L in IH.
  now rewrite (IH Hget).
Qed.

Lemma prepare_args_all (w : World) (sz : Z) (cams : list CameraObject) :
  (forall i, (i < List.length cams)%nat -> getitem_ok w i = true) ->
  prepare_args w cams sz 0 (List.length cams) = Some (slice_args sz 0 cams).
Proof. intros H. exact (prepare_args_suffix w sz cams [] H). Qed.

Lemma slice_args_length (sz : Z) (l : list CameraObject) (i : nat) :
  List.length (slice_args sz i l) = List.length l.
Proof.
  revert i; induction l as [|c l IH]; intros i; cbn; [reflexivity|].
  now rewrite IH.
Qed.

Lemma run_threads_length (w : World) (args : list CamReadWorkerArgStruct)
    (i : nat) :
  List.length (run_threads w i args) = List.length args.
Proof.
  revert i; induction args as [|a l IH]; intros i; cbn; [reflexivity|].
  now rewrite IH.
Qed.

Lemma run_threads_nth (w : World) (sz : Z) (l : list CameraObject)
    (i j : nat) :
  nth_error (run_threads w i (slice_args sz i l)) j
  = match nth_error l j with
    | Some c =>
        Some (cam_read_worker (oracle w (i + j))
                (mkWorkerArgs c (CInt.mul (Z.of_nat (i + j)) sz) 0))
    | None => None
    end.
Proof.
  revert i j; induction l as [|c l IH]; intros i j.
  - destruct j; reflexivity.
  - destruct j as [|j]; cbn [slice_args run_threads nth_error].
    + now rewrite Nat.add_0_r.
    + rewrite IH. now replace (S i + j)%nat with (i + S j)%nat by lia.
Qed.

Lemma first_failure_some (l : list CamReadWorkerArgStruct) (i k : nat) (r : Z) :
  first_failure i l = Some (k, r) ->
  exists j a, k = (i + j)%nat /\ nth_error l j = Some a /\ res a = r
    /\ r <> 0
    /\ forall j', (j' < j)%nat ->
         exists a', nth_error l j' = Some a' /\ res a' = 0.
Proof.
  revert i; induction l as [|a l IH]; intros i; cbn [first_failure];
    [discriminate|].
  destruct (Z.eqb_spec (res a) 0) as [Hz | Hnz]; cbn [negb].
  - intros H. destruct (IH _ H) as (j & a0 & Hk & Hn & Hr & Hr0 & Hbefore).
    exists (S j), a0. repeat split; try assumption; [lia|].
    intros [|j'] Hj'; [exists a; split; [reflexivity | exact Hz]|].
    apply Hbefore; lia.
  - intros [= <- <-]. exists 0%nat, a.
    repeat split; try assumption; [lia|]. intros j' Hj'; lia.
Qed.

Lemma first_failure_none (l : list CamReadWorkerArgStruct) (i : nat) :
  first_failure i l = None ->
  forall j a, nth_error l j = Some a -> res a = 0.
Proof.
  revert i; induction l as [|a l IH]; intros i; cbn [first_failure].
  - intros _ [|j] a0; discriminate.
  - destruct (Z.eqb_spec (res a) 0) as [Hz | Hnz]; cbn [negb]; [|discriminate].
    intros H [|j] a0; cbn [nth_error].
    + now intros [= <-].
    + now apply (IH _ H).
Qed.

Lemma camsys_read_ready (w : World) (camsys : CamSys)
    (cams : list CameraObject) (W H : Z) :
  batch_ready w camsys cams W H ->
  camsys_read w camsys =
  let ran := run_threads w 0 (slice_args (cam_dst_sz W H) 0 cams) in
  let orch := map OCreate (seq 0 (List.length cams))
              ++ map OJoin (seq 0 (List.length cams)) in
  match first_failure 0 (map fst ran) with
  | Some (i, r) =>
      at_RETURN None (Some (PyExc_RuntimeError, batch_msg i r))
                orch (map snd ran) (map fst ran)
  | None =>
      at_RETURN
        (Some (mkArray 4 [Z.of_nat (List.length cams); H; W; 3] NPY_UINT8 true))
        None orch (map snd ran) (map fst ran)
  end.
Proof.
  intros (Hp & Hc & Hne & Hlen & Hw & HW & Hh & HH & Ha & Hg).
  unfold camsys_read. rewrite Hp, Hc, Hw, Hh, Ha. cbn [negb].
  assert (HN : int32 (Z.of_nat (List.length cams))
               = Z.of_nat (List.length cams)).
  { apply int32_id. unfold in_int, INT_MIN. split; [|exact Hlen].
    pose proof (Nat2Z.is_nonneg (List.length cams)). cbn; lia. }
  rewrite HN, (int32_id W HW), (int32_id H HH), Nat2Z.id.
  assert (Hpos : (Z.of_nat (List.length cams) <=? 0) = false).
  { apply Z.leb_gt. destruct cams; [contradiction | cbn [List.length]; lia]. }
  rewrite Hpos, (prepare_args_all w _ cams Hg).
  reflexivity.
Qed.

Lemma batch_res_nth (w : World) (cams : list CameraObject) (W H : Z) (j : nat) :
  option_map res
    (nth_error
       (map fst (run_threads w 0 (slice_args (cam_dst_sz W H) 0 cams))) j)
  = device_res w cams W H j.
Proof.
  rewrite nth_error_map, run_threads_nth. unfold device_res.
  destruct (nth_error cams j); reflexivity.
Qed.

Lemma batch_trace_nth (w : World) (cams : list CameraObject) (W H : Z)
    (j : nat) :
  nth_error
    (map snd (run_threads w 0 (slice_args (cam_dst_sz W H) 0 cams))) j
  = device_trace w cams W H j.
Proof.
  rewrite nth_error_map, run_threads_nth. unfold device_trace.
  destruct (nth_error cams j); reflexivity.
Qed.

(** The scan for errors finds the first device, in sequence order, whose
    worker left a code other than 0. *)
Lemma batch_scan (w : World) (cams : list CameraObject) (W H : Z) :
  match first_failure 0
          (map fst (run_threads w 0 (slice_args (cam_dst_sz W H) 0 cams))) with
  | Some (k, r) =>
      device_res w cams W H k = Some r /\ r <> 0
      /\ forall j, (j < k)%nat -> device_res w cams W H j = Some 0
  | None => forall j r, device_res w cams W H j = Some r -> r = 0
  end.
Proof.
  destruct (first_failure 0 _) as [[k r]|] eqn:E.
  - apply first_failure_some in E.
    destruct E as (j & a & -> & Hn & Hr & Hnz & Hbefore). cbn [Nat.add].
    split; [|split; [exact Hnz|]].
    + rewrite <- batch_res_nth, Hn. cbn. now rewrite Hr.
    + intros j' Hj'. destruct (Hbefore j' Hj') as (a' & Hn' & Hr').
      rewrite <- batch_res_nth, Hn'. cbn. now rewrite Hr'.
  - intros j r Hj. rewrite <- batch_res_nth in Hj.
    destruct (nth_error _ j) as [a|] eqn:Hn; [|discriminate].
    cbn in Hj. injection Hj as <-.
    exact (first_failure_none _ _ E j a Hn).
Qed.

Lemma batch_failure_report (w : World) (camsys : CamSys)
    (cams : list CameraObject) (W H : Z) :
  batch_ready w camsys cams W H ->
  (exists i r, device_res w cams W H i = Some r /\ r <> 0) ->
  exists k r,
    device_res w cams W H k = Some r /\ r <> 0
    /\ (forall j, (j < k)%nat -> device_res w cams W H j = Some 0)
    /\ batch_ret (camsys_read w camsys) = None
    /\ batch_err (camsys_read w camsys)
       = Some (PyExc_RuntimeError, batch_msg k r).
Proof.
  intros Hready (i & r0 & Hi & Hr0).
  rewrite (camsys_read_ready _ _ _ _ _ Hready). cbv zeta.
  pose proof (batch_scan w cams W H) as Hscan.
  destruct (first_failure 0 _) as [[k r]|].
  - destruct Hscan as (Hk & Hr & Hbefore).
    exists k, r. repeat split; assumption.
  - exfalso. apply Hr0. exact (Hscan i r0 Hi).
Qed.

(** C3: in a batch that reaches its workers and in which some worker leaves
    a code other than 0, the call returns no array and raises a
    [RuntimeError] whose message names the least index [k] whose worker
    failed together with that worker's code, which is the code of the stage
    that failed on device [k]; every device before [k] succeeded. *)
Theorem batch_reports_first_failure (w : World) (camsys : CamSys)
    (cams : list CameraObject) (W H : Z) :
  batch_ready w camsys cams W H ->
  (exists i r, device_res w cams W H i = Some r /\ r <> 0) ->
  exists k r,
    device_res w cams W H k = Some r /\ r <> 0
    /\ r = outcome_code (outcome_of (oracle w k))
    /\ (forall j, (j < k)%nat -> device_res w cams W H j = Some 0)
    /\ batch_ret (camsys_read w camsys) = None
    /\ batch_err (camsys_read w camsys)
       = Some (PyExc_RuntimeError, batch_msg k r).
Proof.
  intros Hready Hfail.
  destruct (batch_failure_report _ _ _ _ _ Hready Hfail)
    as (k & r & Hk & Hr & Hbefore & Hret & Herr).
  exists k, r. repeat split; try assumption.
  unfold device_res in Hk. destruct (nth_error cams k); [|discriminate].
  injection Hk as <-. apply worker_res_outcome.
Qed.

Ltac solve_in_int := unfold in_int, INT_MIN, INT_MAX; cbn; lia.

Ltac int_nia :=
  unfold in_int, INT_MIN, INT_MAX; change (2 ^ 31) with 2147483648; nia.

Ltac solve_ready :=
  unfold batch_ready; cbn [parse_ok alloc_ok getitem_ok sample_world];
  repeat split;
  try reflexivity; try discriminate; try solve_in_int.

Lemma three_cams_ready (orc : nat -> Oracle) :
  batch_ready (sample_world orc) three_cams
    [sample_cam 640 480; sample_cam 640 480; sample_cam 640 480] 640 480.
Proof. solve_ready. Qed.

Lemma batch_reports_first_failure_witness :
  batch_ret (camsys_read (sample_world device1_fails) three_cams) = None
  /\ batch_err (camsys_read (sample_world device1_fails) three_cams)
     = Some (PyExc_RuntimeError,
             ("Reading image from camera 1 failed: 2" ++ nl)%string).
Proof.
  destruct (batch_reports_first_failure (sample_world device1_fails) three_cams
              _ 640 480 (three_cams_ready device1_fails))
    as (k & r & Hk & Hr & _ & Hbefore & Hret & Herr).
  - exists 1%nat, 2. split; [reflexivity | discriminate].
  - split; [exact Hret|]. rewrite Herr.
    destruct k as [|[|[|k]]].
    + vm_compute in Hk. injection Hk as <-. contradiction Hr; reflexivity.
    + vm_compute in Hk. injection Hk as <-. reflexivity.
    + specialize (Hbefore 1%nat ltac:(lia)). vm_compute in Hbefore.
      discriminate.
    + destruct k; discriminate.
Defined.

(** C5: a batch over [N >= 1] devices that reaches its workers and in which
    every worker leaves code 0 returns, with no error pending, an array of
    4 dimensions [N; H; W; 3] of unsigned 8-bit elements that owns its
    data; the call does not let go of the array at its exit, so the
    reference it returns is the caller's. *)
Theorem batch_success_shape (w : World) (camsys : CamSys)
    (cams : list CameraObject) (W H : Z) :
  batch_ready w camsys cams W H ->
  (forall k r, device_res w cams W H k = Some r -> r = 0) ->
  (1 <= List.length cams)%nat
  /\ batch_ret (camsys_read w camsys)
     = Some (mkArray 4 [Z.of_nat (List.length cams); H; W; 3] NPY_UINT8 true)
  /\ batch_err (camsys_read w camsys) = None
  /\ ~ In RArr (batch_released (camsys_read w camsys)).
Proof.
  intros Hready Hall.
  split.
  { destruct Hready as (_ & _ & Hne & _).
    destruct cams; [contradiction | cbn; lia]. }
  rewrite (camsys_read_ready _ _ _ _ _ Hready). cbv zeta.
  pose proof (batch_scan w cams W H) as Hscan.
  destruct (first_failure 0 _) as [[k r]|].
  - destruct Hscan as (Hk & Hr & _). contradiction Hr. exact (Hall k r Hk).
  - cbn. repeat split. intros [E | [E | [E | [E | [E | []]]]]]; discriminate.
Qed.

Lemma batch_success_shape_witness :
  batch_ret (camsys_read (sample_world (fun _ => all_ok)) three_cams)
  = Some (mkArray 4 [3; 480; 640; 3] NPY_UINT8 true).
Proof.
  destruct (batch_success_shape (sample_world (fun _ => all_ok)) three_cams
              _ 640 480 (three_cams_ready _)) as (_ & Hret & _).
  - intros [|[|[|k]]] r Hk; vm_compute in Hk; try discriminate;
      try (injection Hk as <-; reflexivity).
    destruct k; discriminate.
  - exact Hret.
Defined.

(** C4: a batch read over an empty device sequence returns nothing and
    raises a [ValueError]; no thread is created and no call is made to any
    device. *)
Theorem empty_batch_rejected (w : World) (pw ph : option Z) :
  parse_ok w = true ->
  let r := camsys_read w (mkCamSys (Some []) pw ph) in
  batch_ret r = None
  /\ batch_err r
     = Some (PyExc_ValueError, "camsys contains no cameras."%string)
  /\ existsb is_create (batch_orch r) = false
  /\ batch_threads r = []
  /\ batch_args r = [].
Proof.
  intros Hp r. subst r. unfold camsys_read. rewrite Hp.
  cbn. repeat split.
Qed.

Lemma empty_batch_rejected_witness :
  batch_err (camsys_read (sample_world (fun _ => all_ok)) no_cams)
  = Some (PyExc_ValueError, "camsys contains no cameras."%string)
  /\ batch_threads (camsys_read (sample_world (fun _ => all_ok)) no_cams) = [].
Proof.
  destruct (empty_batch_rejected (sample_world (fun _ => all_ok))
              (Some 640) (Some 480) eq_refl) as (_ & Herr & _ & Hth & _).
  split; [exact Herr | exact Hth].
Defined.

(** ** Codes and messages *)

Lemma camera_read_failure (w : World) (self : CameraObject) :
  worker_res (oracle w 0%nat) (mkWorkerArgs self 0 0) <> 0 ->
  read_ret (camera_read w self) = None
  /\ read_err (camera_read w self)
     = Some (PyExc_RuntimeError,
             read_msg (worker_res (oracle w 0%nat) (mkWorkerArgs self 0 0))).
Proof.
  unfold worker_res, camera_read.
  destruct (cam_read_worker (oracle w 0%nat) (mkWorkerArgs self 0 0))
    as [a' tr]. cbn [fst].
  intros Hnz. destruct (Z.eqb_spec (res a') 0) as [E | _]; [contradiction|].
  cbn. split; reflexivity.
Qed.

Lemma batch_first_failure_unique (w : World) (camsys : CamSys)
    (cams : list CameraObject) (W H : Z) (k : nat) (r : Z) :
  batch_ready w camsys cams W H ->
  device_res w cams W H k = Some r -> r <> 0 ->
  (forall j, (j < k)%nat -> device_res w cams W H j = Some 0) ->
  batch_ret (camsys_read w camsys) = None
  /\ batch_err (camsys_read w camsys)
     = Some (PyExc_RuntimeError, batch_msg k r).
Proof.
  intros Hready Hk Hr Hbefore.
  destruct (batch_failure_report _ _ _ _ _ Hready
              (ex_intro _ k (ex_intro _ r (conj Hk Hr))))
    as (k' & r' & Hk' & Hr' & Hbefore' & Hret & Herr).
  assert (k' = k) as ->.
  { destruct (Nat.lt_trichotomy k k') as [Hlt | [E | Hgt]]; [|now symmetry|].
    - rewrite (Hbefore' k Hlt) in Hk. injection Hk as <-. contradiction.
    - rewrite (Hbefore k' Hgt) in Hk'. injection Hk' as <-. contradiction. }
  rewrite Hk in Hk'. injection Hk' as <-. split; assumption.
Qed.

(** C9: the code a worker leaves is 1 when the dequeue fails, 2 when the
    first conversion fails, 3 when the requeue fails, 4 when the second
    conversion fails, each provided the earlier stages succeeded, and 0
    when all four succeed; no other value occurs. The message of the
    [RuntimeError] of the single-device read and that of the batch read
    carry this code printed in decimal. *)
Theorem outcome_code_in_messages :
  (forall o a,
      worker_res o a = outcome_code (outcome_of o)
      /\ 0 <= worker_res o a <= 4
      /\ (dqbuf_ret o = -1 -> worker_res o a = 1)
      /\ (dqbuf_ret o <> -1 -> to_argb_ret o <> 0 -> worker_res o a = 2)
      /\ (dqbuf_ret o <> -1 -> to_argb_ret o = 0 -> qbuf_ret o = -1 ->
           worker_res o a = 3)
      /\ (dqbuf_ret o <> -1 -> to_argb_ret o = 0 -> qbuf_ret o <> -1 ->
           to_raw_ret o <> 0 -> worker_res o a = 4)
      /\ (dqbuf_ret o <> -1 -> to_argb_ret o = 0 -> qbuf_ret o <> -1 ->
           to_raw_ret o = 0 -> worker_res o a = 0))
  /\ map outcome_code
       [Success; DequeueFailed; Conversion1Failed; RequeueFailed;
        Conversion2Failed] = [0; 1; 2; 3; 4]
  /\ map fmt_i [0; 1; 2; 3; 4] = ["0"; "1"; "2"; "3"; "4"]%string
  /\ (forall w self,
        let r := worker_res (oracle w 0%nat) (mkWorkerArgs self 0 0) in
        r <> 0 ->
        read_err (camera_read w self)
        = Some (PyExc_RuntimeError,
                ("Reading image failed: " ++ fmt_i r ++ nl)%string))
  /\ (forall w camsys cams W H k r,
        batch_ready w camsys cams W H ->
        device_res w cams W H k = Some r -> r <> 0 ->
        (forall j, (j < k)%nat -> device_res w cams W H j = Some 0) ->
        batch_err (camsys_read w camsys)
        = Some (PyExc_RuntimeError,
                ("Reading image from camera " ++ fmt_i (Z.of_nat k)
                   ++ " failed: " ++ fmt_i r ++ nl)%string)).
Proof.
  split.
  { intros o a. split; [apply worker_res_outcome|].
    split; [apply worker_res_range|].
    rewrite worker_res_outcome. unfold outcome_of.
    repeat split; intros;
      repeat match goal with
             | H : ?x = ?y |- _ =>
                 apply Z.eqb_eq in H; rewrite H
             | H : ?x <> ?y |- _ =>
                 apply Z.eqb_neq in H; rewrite H
             end; reflexivity. }
  split; [reflexivity|]. split; [reflexivity|]. split.
  - intros w self r Hr. exact (proj2 (camera_read_failure w self Hr)).
  - intros w camsys cams W H k r Hready Hk Hr Hbefore.
    exact (proj2 (batch_first_failure_unique _ _ _ _ _ _ _
                    Hready Hk Hr Hbefore)).
Qed.

Lemma outcome_code_in_messages_witness :
  read_err (camera_read (sample_world (fun _ => requeue_fails))
              (sample_cam 640 480))
  = Some (PyExc_RuntimeError, ("Reading image failed: 3" ++ nl)%string)
  /\ batch_err (camsys_read (sample_world device1_fails) three_cams)
     = Some (PyExc_RuntimeError,
             ("Reading image from camera 1 failed: 2" ++ nl)%string).
Proof.
  destruct outcome_code_in_messages as (_ & _ & _ & Hread & Hbatch).
  split.
  - rewrite Hread; [reflexivity | vm_compute; discriminate].
  - rewrite (Hbatch (sample_world device1_fails) three_cams _ 640 480 1%nat 2
               (three_cams_ready _)).
    + reflexivity.
    + reflexivity.
    + discriminate.
    + intros [|j] Hj; [reflexivity | lia].
Defined.

(** ** Fan-out, fan-in and raising *)

Lemma prepare_args_length (w : World) (cams : list CameraObject) (sz : Z)
    (n i : nat) (l : list CamReadWorkerArgStruct) :
  prepare_args w cams sz i n = Some l -> List.length l = n.
Proof.
  revert i l; induction n as [|n IH]; intros i l; cbn [prepare_args].
  - now intros [= <-].
  - destruct (nth_error cams i); [|discriminate].
    destruct (getitem_ok w i); [|discriminate].
    destruct (prepare_args w cams sz (S i) n) as [rest|] eqn:E; [|discriminate].
    intros [= <-]. cbn. f_equal. exact (IH _ _ E).
Qed.

(** Whatever the runtime and the devices answer, the orchestrating thread
    creates some number of threads, joins each of them, and only then
    raises, if it raises at all. *)
Lemma camsys_read_orch (w : World) (camsys : CamSys) :
  batch_orch (camsys_read w camsys)
  = fan (List.length (batch_threads (camsys_read w camsys)))
    ++ raised (batch_err (camsys_read w camsys)).
Proof.
  unfold camsys_read.
  destruct (parse_ok w); cbn [negb]; [|reflexivity].
  destruct (cameras camsys) as [cams|]; [|reflexivity].
  destruct (_ <=? 0); [reflexivity|].
  destruct (sys_width camsys); [|reflexivity].
  destruct (sys_height camsys); [|reflexivity].
  destruct (alloc_ok w); cbn [negb]; [|reflexivity].
  destruct (prepare_args _ _ _ _ _) as [cam_args|] eqn:E; [|reflexivity].
  apply prepare_args_length in E.
  assert (L : List.length (map snd (run_threads w 0 cam_args))
              = Z.to_nat (int32 (Z.of_nat (List.length cams))))
    by now rewrite length_map, run_threads_length.
  destruct (first_failure 0 _) as [[i r]|];
    unfold at_RETURN, fan;
    cbn [batch_orch batch_threads batch_err raised]; rewrite L.
  - reflexivity.
  - now rewrite app_nil_r.
Qed.

Lemma fan_no_raise (n : nat) (e : OrchEvent) :
  In e (fan n) -> is_raise e = false.
Proof.
  unfold fan. rewrite in_app_iff, !in_map_iff.
  intros [(i & <- & _) | (i & <- & _)]; reflexivity.
Qed.

Lemma fan_joins (n i : nat) : In (OCreate i) (fan n) -> In (OJoin i) (fan n).
Proof.
  unfold fan. rewrite !in_app_iff, !in_map_iff.
  intros [(j & [= ->] & Hj) | (j & [=] & _)].
  right. now exists i.
Qed.

(** A trace that ends with its only raise splits at that raise alone. *)
Lemma split_at_raise (l pre post : list OrchEvent) (x y : PyErr) :
  (forall e, In e l -> is_raise e = false) ->
  l ++ [ORaise x] = pre ++ ORaise y :: post ->
  pre = l /\ post = [] /\ x = y.
Proof.
  revert pre; induction l as [|a l IH]; intros pre Hl E.
  - destruct pre as [|b pre]; cbn in E.
    + injection E as -> <-. auto.
    + injection E as _ E. destruct pre; discriminate.
  - destruct pre as [|b pre]; cbn in E.
    + injection E as -> _. specialize (Hl (ORaise y) (or_introl eq_refl)).
      discriminate.
    + injection E as <- E.
      destruct (IH pre (fun e He => Hl e (or_intror He)) E) as (-> & -> & ->).
      auto.
Qed.

(** C7: in every batch call, whatever fails, the trace of the orchestrating
    thread is the creation of its [n] threads, the join of each of them,
    and then at most one raise. So every created thread is joined, and a
    raise comes last, after the join of every created thread, and is the
    error the caller sees. *)
Theorem errors_only_after_join_barrier (w : World) (camsys : CamSys) :
  let r := camsys_read w camsys in
  let n := List.length (batch_threads r) in
  batch_orch r
  = map OCreate (seq 0 n) ++ map OJoin (seq 0 n) ++ raised (batch_err r)
  /\ (forall i, In (OCreate i) (batch_orch r) <-> (i < n)%nat)
  /\ (forall i, In (OCreate i) (batch_orch r) -> In (OJoin i) (batch_orch r))
  /\ (forall pre e post,
        batch_orch r = pre ++ ORaise e :: post ->
        post = [] /\ batch_err r = Some e
        /\ forall i, In (OCreate i) (batch_orch r) -> In (OJoin i) pre).
Proof.
  intros r n. subst r n. rewrite camsys_read_orch.
  set (n := List.length (batch_threads (camsys_read w camsys))).
  set (err := batch_err (camsys_read w camsys)).
  assert (Hcreate : forall i, In (OCreate i) (fan n ++ raised err)
                              -> In (OCreate i) (fan n)).
  { intros i Hin. apply in_app_or in Hin. destruct Hin as [Hin | Hin];
      [exact Hin|]. destruct err; cbn in Hin; [|contradiction].
    destruct Hin as [E | []]; discriminate. }
  split; [unfold fan; now rewrite <- app_assoc|].
  split.
  { intros i. split.
    - intros Hin. apply Hcreate in Hin. unfold fan in Hin.
      rewrite in_app_iff, !in_map_iff in Hin.
      destruct Hin as [(j & [= ->] & Hj) | (j & [=] & _)].
      apply in_seq in Hj; lia.
    - intros Hi. apply in_or_app. left. unfold fan. apply in_or_app. left.
      apply in_map. apply in_seq; lia. }
  split.
  { intros i Hin. apply in_or_app. left. apply fan_joins. now apply Hcreate. }
  intros pre e post E.
  destruct err as [x|]; cbn [raised] in *.
  - destruct (split_at_raise (fan n) pre post x e (fan_no_raise n) E)
      as (-> & -> & ->).
    repeat split. intros i Hin. apply fan_joins. now apply Hcreate.
  - rewrite app_nil_r in E.
    assert (Hin : In (ORaise e) (fan n))
      by (rewrite E; apply in_or_app; right; left; reflexivity).
    apply fan_no_raise in Hin. discriminate.
Qed.

Example join_barrier_then_raise :
  batch_orch (camsys_read (sample_world device1_fails) three_cams)
  = [OCreate 0; OCreate 1; OCreate 2; OJoin 0; OJoin 1; OJoin 2;
     ORaise (PyExc_RuntimeError,
             ("Reading image from camera 1 failed: 2" ++ nl)%string)].
Proof. reflexivity. Qed.

(** ** Slices of the result buffer *)

Lemma firstn_incl {A} (n : nat) (l : list A) (x : A) :
  In x (firstn n l) -> In x l.
Proof.
  revert n; induction l as [|y l IH]; intros [|n]; cbn; try tauto.
  intros [E | Hin]; [now left | right; exact (IH _ Hin)].
Qed.

(** The bytes a worker addresses lie in the rows its own camera's width and
    height span from its destination. *)
Lemma worker_addresses_range (o : Oracle) (a : CamReadWorkerArgStruct) (b : Z) :
  addresses (worker_trace o a) b ->
  dst a <= b < dst a + height (cam a) * CInt.mul (width (cam a)) 3.
Proof.
  rewrite worker_trace_unfold. intros (e & lo & hi & Hin & Hr & Hb).
  apply firstn_incl in Hin. cbn in Hin.
  destruct Hin as [<- | [<- | [<- | [<- | []]]]]; cbn in Hr; try discriminate.
  injection Hr as <- <-. exact Hb.
Qed.

Lemma batch_ready_exit (w : World) (camsys : CamSys)
    (cams : list CameraObject) (W H : Z) :
  batch_ready w camsys cams W H ->
  batch_threads (camsys_read w camsys)
  = map snd (run_threads w 0 (slice_args (cam_dst_sz W H) 0 cams))
  /\ batch_args (camsys_read w camsys)
     = map fst (run_threads w 0 (slice_args (cam_dst_sz W H) 0 cams)).
Proof.
  intros Hready. rewrite (camsys_read_ready _ _ _ _ _ Hready). cbv zeta.
  destruct (first_failure 0 _) as [[k r]|]; split; reflexivity.
Qed.

(** The argument of thread [i] after the batch: its camera is item [i] of
    the sequence and its destination is [i] slice sizes into the array. *)
Lemma batch_args_nth (w : World) (camsys : CamSys)
    (cams : list CameraObject) (W H : Z) (i : nat) (c : CameraObject) :
  batch_ready w camsys cams W H ->
  nth_error cams i = Some c ->
  exists a, nth_error (batch_args (camsys_read w camsys)) i = Some a
    /\ cam a = c
    /\ dst a = CInt.mul (Z.of_nat i) (cam_dst_sz W H).
Proof.
  intros Hready Hc.
  rewrite (proj2 (batch_ready_exit _ _ _ _ _ Hready)).
  rewrite nth_error_map, run_threads_nth, Hc. cbn [Nat.add option_map].
  rewrite cam_read_worker_unfold. cbn [fst].
  eexists; split; [reflexivity|]. split; reflexivity.
Qed.

Lemma batch_threads_nth (w : World) (camsys : CamSys)
    (cams : list CameraObject) (W H : Z) (i : nat) (tr : list Event) :
  batch_ready w camsys cams W H ->
  nth_error (batch_threads (camsys_read w camsys)) i = Some tr ->
  exists c, nth_error cams i = Some c
    /\ tr = worker_trace (oracle w i)
              (mkWorkerArgs c (CInt.mul (Z.of_nat i) (cam_dst_sz W H)) 0).
Proof.
  intros Hready.
  rewrite (proj1 (batch_ready_exit _ _ _ _ _ Hready)), batch_trace_nth.
  unfold device_trace. destruct (nth_error cams i) as [c|]; [|discriminate].
  intros [= <-]. now exists c.
Qed.

(** Arithmetic of a slice whose size and offset fit an [int]. *)
Lemma slice_exact (W H : Z) (i : nat) :
  fits_int W H i ->
  cam_dst_sz W H = H * W * 3
  /\ CInt.mul (Z.of_nat i) (cam_dst_sz W H) = Z.of_nat i * H * W * 3.
Proof.
  unfold fits_int, INT_MAX. change (2 ^ 31) with 2147483648.
  intros (Hsz & Hoff).
  pose proof (Z.abs_spec (H * W * 3)) as Habs.
  assert (Esz : cam_dst_sz W H = H * W * 3).
  { unfold cam_dst_sz. rewrite (mul_exact W H) by int_nia.
    rewrite mul_exact by int_nia. lia. }
  split; [exact Esz|].
  rewrite Esz, mul_exact; [lia|].
  pose proof (Nat2Z.is_nonneg i). int_nia.
Qed.

Lemma row_exact (W H : Z) :
  Z.abs (H * W * 3) <= INT_MAX -> H * CInt.mul W 3 = H * W * 3.
Proof.
  unfold INT_MAX. change (2 ^ 31) with 2147483648. intros Hsz.
  destruct (Z.eq_dec H 0) as [-> | Hnz]; [lia|].
  rewrite mul_exact; [lia|].
  pose proof (Z.abs_spec (H * W * 3)). int_nia.
Qed.

(** A worker whose own extent is at most the slice size stays within its
    slice. *)
Lemma batch_worker_extent (w : World) (camsys : CamSys)
    (cams : list CameraObject) (W H : Z) (i : nat) (c : CameraObject)
    (tr : list Event) (b : Z) :
  batch_ready w camsys cams W H ->
  fits_int W H i ->
  nth_error cams i = Some c -> own_extent c <= H * W * 3 ->
  nth_error (batch_threads (camsys_read w camsys)) i = Some tr ->
  addresses tr b -> in_slice W H i b.
Proof.
  intros Hready Hfit Hc Hext Htr Hb.
  destruct (batch_threads_nth _ _ _ _ _ _ _ Hready Htr) as (c' & Hc' & ->).
  rewrite Hc in Hc'. injection Hc' as <-.
  apply worker_addresses_range in Hb. cbn [dst cam] in Hb.
  destruct (slice_exact W H i Hfit) as (_ & Hoff). rewrite Hoff in Hb.
  unfold own_extent in Hext. unfold in_slice. lia.
Qed.

Lemma batch_worker_in_slice (w : World) (camsys : CamSys)
    (cams : list CameraObject) (W H : Z) (i : nat) (c : CameraObject)
    (tr : list Event) (b : Z) :
  batch_ready w camsys cams W H ->
  fits_int W H i ->
  nth_error cams i = Some c -> width c = W -> height c = H ->
  nth_error (batch_threads (camsys_read w camsys)) i = Some tr ->
  addresses tr b -> in_slice W H i b.
Proof.
  intros Hready Hfit Hc Hcw Hch Htr Hb.
  apply (batch_worker_extent w camsys cams W H i c tr b Hready Hfit Hc);
    try assumption.
  unfold own_extent. rewrite Hcw, Hch, (row_exact W H (proj1 Hfit)). lia.
Qed.

(** A worker that reaches its last stage with an extent beyond the slice
    size addresses the first byte past its slice. *)
Lemma batch_worker_escapes (w : World) (camsys : CamSys)
    (cams : list CameraObject) (W H : Z) (i : nat) (c : CameraObject)
    (tr : list Event) :
  batch_ready w camsys cams W H ->
  fits_int W H i ->
  nth_error cams i = Some c -> 0 <= H * W * 3 < own_extent c ->
  nth_error (batch_threads (camsys_read w camsys)) i = Some tr ->
  first_failed (oracle w i) = None \/ first_failed (oracle w i) = Some 4%nat ->
  addresses tr (Z.of_nat i * H * W * 3 + H * W * 3)
  /\ ~ in_slice W H i (Z.of_nat i * H * W * 3 + H * W * 3).
Proof.
  intros Hready Hfit Hc Hext Htr Hlast.
  destruct (batch_threads_nth _ _ _ _ _ _ _ Hready Htr) as (c' & Hc' & ->).
  rewrite Hc in Hc'. injection Hc' as <-.
  destruct (slice_exact W H i Hfit) as (_ & Hoff). rewrite Hoff.
  split; [|unfold in_slice; lia].
  rewrite worker_trace_unfold. unfold stages_run.
  set (a := mkWorkerArgs c (Z.of_nat i * H * W * 3) 0).
  exists (ev_to_raw a), (dst a), (dst a + own_extent c).
  split.
  - destruct Hlast as [-> | ->]; cbn; auto.
  - split; [reflexivity|]. cbn [dst a]. lia.
Qed.

Lemma slices_disjoint (W H : Z) (i j : nat) (b : Z) :
  i <> j -> in_slice W H i b -> ~ in_slice W H j b.
Proof.
  unfold in_slice. intros Hij Hi Hj.
  assert (Hs : 0 < H * W * 3) by lia.
  destruct (Nat.lt_trichotomy i j) as [Hlt | [E | Hgt]]; [|contradiction|].
  - assert (Z.of_nat i + 1 <= Z.of_nat j) by lia. nia.
  - assert (Z.of_nat j + 1 <= Z.of_nat i) by lia. nia.
Qed.

(** C1: with two cameras of 32768x32768 frames in a system of that size,
    the batch reaches its workers and every camera has the system's width
    and height, yet the slice size 32768 * 32768 * 3 = 3221225472 does not
    fit the [int] it is computed in: thread 1 is handed the address
    -1073741824 instead of 3221225472, and both workers address byte 0 of
    the result buffer. *)
Theorem slice_offsets_overflow :
  let cams := [sample_cam 32768 32768; sample_cam 32768 32768] in
  let r := camsys_read (sample_world (fun _ => all_ok)) huge_cams in
  batch_ready (sample_world (fun _ => all_ok)) huge_cams cams 32768 32768
  /\ Forall (fun c => width c = 32768 /\ height c = 32768) cams
  /\ batch_ret r
     = Some (mkArray 4 [2; 32768; 32768; 3] NPY_UINT8 true)
  /\ map dst (batch_args r) = [0; -1073741824]
  /\ Z.of_nat 1 * 32768 * 32768 * 3 = 3221225472
  /\ (exists t0 t1,
        nth_error (batch_threads r) 0 = Some t0
        /\ nth_error (batch_threads r) 1 = Some t1
        /\ addresses t0 0 /\ addresses t1 0).
Proof.
  cbv zeta.
  split; [solve_ready|]. split; [repeat constructor|].
  split; [vm_compute; reflexivity|]. split; [vm_compute; reflexivity|].
  split; [reflexivity|].
  eexists. eexists.
  split; [vm_compute; reflexivity|]. split; [vm_compute; reflexivity|].
  split.
  - exists (EvARGBToRAW 131072 0 98304 32768 32768), 0, (0 + 32768 * 98304).
    split; [do 3 right; left; reflexivity|]. split; [reflexivity | lia].
  - exists (EvARGBToRAW 131072 (-1073741824) 98304 32768 32768),
      (-1073741824), (-1073741824 + 32768 * 98304).
    split; [do 3 right; left; reflexivity|]. split; [reflexivity | lia].
Qed.

(** X18: in a batch that reaches its workers over devices that all have
    the width [W] and the height [H] of the capture system, with the slice
    size and every offset fitting an [int], thread [i] is handed the
    address [i * H * W * 3]; the slices of length [H * W * 3] that start
    there do not overlap for distinct devices; every byte a worker
    addresses lies in its own slice, so no byte is addressed by two
    workers. *)
Theorem batch_slices_disjoint (w : World) (camsys : CamSys)
    (cams : list CameraObject) (W H : Z) :
  batch_ready w camsys cams W H ->
  Forall (fun c => width c = W /\ height c = H) cams ->
  (forall i, (i < List.length cams)%nat -> fits_int W H i) ->
  let r := camsys_read w camsys in
  (forall i c, nth_error cams i = Some c ->
     exists a, nth_error (batch_args r) i = Some a /\ cam a = c
       /\ dst a = Z.of_nat i * H * W * 3)
  /\ (forall i j b, i <> j -> in_slice W H i b -> ~ in_slice W H j b)
  /\ (forall i tr b, nth_error (batch_threads r) i = Some tr ->
        addresses tr b -> in_slice W H i b)
  /\ (forall i j ti tj b, i <> j ->
        nth_error (batch_threads r) i = Some ti ->
        nth_error (batch_threads r) j = Some tj ->
        addresses ti b -> ~ addresses tj b).
Proof.
  intros Hready Hsame Hfit r. subst r.
  assert (Hlt : forall i c, nth_error cams i = Some c ->
                            (i < List.length cams)%nat).
  { intros i c Hc. apply nth_error_Some. rewrite Hc. discriminate. }
  assert (Hin : forall i tr b,
             nth_error (batch_threads (camsys_read w camsys)) i = Some tr ->
             addresses tr b -> in_slice W H i b).
  { intros i tr b Htr Hb.
    destruct (batch_threads_nth _ _ _ _ _ _ _ Hready Htr) as (c & Hc & _).
    rewrite Forall_forall in Hsame.
    destruct (Hsame c (nth_error_In _ _ Hc)) as (Hcw & Hch).
    exact (batch_worker_in_slice _ _ _ _ _ _ _ _ _
             Hready (Hfit i (Hlt i c Hc)) Hc Hcw Hch Htr Hb). }
  split.
  { intros i c Hc.
    destruct (batch_args_nth _ _ _ _ _ _ _ Hready Hc) as (a & Ha & Hca & Hd).
    exists a. split; [exact Ha|]. split; [exact Hca|]. rewrite Hd.
    exact (proj2 (slice_exact W H i (Hfit i (Hlt i c Hc)))). }
  split; [intros i j b; now apply slices_disjoint|].
  split; [exact Hin|].
  intros i j ti tj b Hij Hti Htj Hbi Hbj.
  exact (slices_disjoint W H i j b Hij (Hin _ _ _ Hti Hbi)
           (Hin _ _ _ Htj Hbj)).
Qed.

Lemma three_cams_same :
  Forall (fun c => width c = 640 /\ height c = 480)
    [sample_cam 640 480; sample_cam 640 480; sample_cam 640 480].
Proof. repeat constructor. Qed.

Lemma three_cams_fit (i : nat) : (i < 3)%nat -> fits_int 640 480 i.
Proof.
  intros Hi. unfold fits_int, INT_MAX. change (2 ^ 31) with 2147483648.
  change (Z.abs (480 * 640 * 3)) with 921600. lia.
Qed.

Lemma batch_slices_disjoint_witness :
  let r := camsys_read (sample_world (fun _ => all_ok)) three_cams in
  (exists a, nth_error (batch_args r) 2 = Some a /\ dst a = 1843200)
  /\ (forall ti tj b,
        nth_error (batch_threads r) 0 = Some ti ->
        nth_error (batch_threads r) 1 = Some tj ->
        addresses ti b -> ~ addresses tj b).
Proof.
  destruct (batch_slices_disjoint (sample_world (fun _ => all_ok)) three_cams
              _ 640 480 (three_cams_ready _) three_cams_same three_cams_fit)
    as (Hoff & _ & _ & Hdis).
  split.
  - destruct (Hoff 2%nat (sample_cam 640 480) eq_refl) as (a & Ha & _ & Hd).
    exists a. split; [exact Ha | exact Hd].
  - intros ti tj b. apply (Hdis 0%nat 1%nat). discriminate.
Defined.

Lemma worker_addresses_all (o : Oracle) (a : CamReadWorkerArgStruct) (b : Z) :
  first_failed o = None ->
  dst a <= b < dst a + height (cam a) * CInt.mul (width (cam a)) 3 ->
  addresses (worker_trace o a) b.
Proof.
  intros Hnone Hb. rewrite worker_trace_unfold. unfold stages_run.
  rewrite Hnone. exists (ev_to_raw a), (dst a),
    (dst a + height (cam a) * CInt.mul (width (cam a)) 3).
  split; [cbn; auto|]. split; [reflexivity | exact Hb].
Qed.

Lemma small_in_large_ready :
  batch_ready (sample_world (fun _ => all_ok)) small_in_large
    [sample_cam 1 1] 2 2.
Proof. solve_ready. Qed.

Lemma mismatched_cams_ready :
  batch_ready (sample_world (fun _ => all_ok)) mismatched_cams
    [sample_cam 4 4; sample_cam 2 2] 2 2.
Proof. solve_ready. Qed.

Lemma fits_int_small (i : nat) : (i < 3)%nat -> fits_int 2 2 i.
Proof.
  intros Hi. unfold fits_int, INT_MAX. change (2 ^ 31) with 2147483648.
  change (Z.abs (2 * 2 * 3)) with 12. lia.
Qed.

(** Equal sizes are not needed for a worker to stay within its slice: the
    worker of a 1x1 camera in a system of 2x2 frames writes the bytes 0
    to 2 of a slice of 12 bytes. *)
Lemma same_size_not_necessary :
  ~ (forall w camsys cams W H i c tr,
        batch_ready w camsys cams W H ->
        nth_error cams i = Some c ->
        nth_error (batch_threads (camsys_read w camsys)) i = Some tr ->
        (exists b, addresses tr b) ->
        (forall b, addresses tr b -> in_slice W H i b) ->
        width c = W /\ height c = H).
Proof.
  intros Hclaim.
  assert (Htr : nth_error
                  (batch_threads
                     (camsys_read (sample_world (fun _ => all_ok))
                        small_in_large)) 0
                = Some [EvDQBUF 3;
                        EvConvertToARGB 0 4 1 1 (fourcc (sample_cam 1 1));
                        EvQBUF 3 0; EvARGBToRAW 4 0 3 1 1])
    by (vm_compute; reflexivity).
  destruct (Hclaim (sample_world (fun _ => all_ok)) small_in_large
              [sample_cam 1 1] 2 2 0%nat (sample_cam 1 1) _
              small_in_large_ready eq_refl Htr) as (Hw & _).
  - exists 0, (EvARGBToRAW 4 0 3 1 1), 0, 3.
    split; [do 3 right; left; reflexivity|]. split; [reflexivity | lia].
  - intros b Hb.
    apply (batch_worker_extent (sample_world (fun _ => all_ok))
             small_in_large [sample_cam 1 1] 2 2 0%nat (sample_cam 1 1)
             [EvDQBUF 3; EvConvertToARGB 0 4 1 1 (fourcc (sample_cam 1 1));
              EvQBUF 3 0; EvARGBToRAW 4 0 3 1 1] b
             small_in_large_ready (fits_int_small 0 ltac:(lia)) eq_refl);
      [vm_compute; discriminate | exact Htr | exact Hb].
  - discriminate Hw.
Qed.

Lemma last_stage_reached (w : World) (cams : list CameraObject) (W H : Z)
    (i : nat) :
  device_res w cams W H i = Some 0 \/ device_res w cams W H i = Some 4 ->
  first_failed (oracle w i) = None \/ first_failed (oracle w i) = Some 4%nat.
Proof.
  unfold device_res. destruct (nth_error cams i) as [c|];
    [|intros [E | E]; discriminate].
  rewrite worker_res_unfold.
  destruct (first_failed (oracle w i)) as [k|] eqn:E; [|now left].
  apply first_failed_range in E. destruct E as (Hk & _).
  intros [[= Hz] | [= Hz]]; [lia|]. right. f_equal. lia.
Qed.

(** C10: the batch read derives the address handed to thread [i] from the
    width and height of the capture system alone, whereas a worker sizes
    its scratch buffer and the rows it writes from its camera's own width
    and height. As long as the slice size and the offset fit the [int]
    they are computed in: when the camera's width and height are those of
    the system, every byte the worker addresses lies in its slice; the
    same holds for any camera whose own extent is not larger than the
    slice, so that equal sizes are sufficient without being necessary;
    and a worker that reaches its last stage with a larger extent
    addresses a byte past its slice. *)
Theorem worker_extent_from_own_size :
  (forall w camsys cams W H i c,
      batch_ready w camsys cams W H -> nth_error cams i = Some c ->
      exists a, nth_error (batch_args (camsys_read w camsys)) i = Some a
        /\ cam a = c
        /\ dst a = CInt.mul (Z.of_nat i) (CInt.mul (CInt.mul W H) 3))
  /\ (forall o a,
        argb_size (cam a)
        = CInt.mul (CInt.mul (height (cam a)) (width (cam a))) 4
        /\ (forall b, addresses (worker_trace o a) b ->
              dst a <= b < dst a + own_extent (cam a))
        /\ (first_failed o = None ->
            forall b,
              dst a <= b < dst a + own_extent (cam a) ->
              addresses (worker_trace o a) b))
  /\ (forall w camsys cams W H i c tr b,
        batch_ready w camsys cams W H ->
        fits_int W H i ->
        nth_error cams i = Some c -> width c = W -> height c = H ->
        nth_error (batch_threads (camsys_read w camsys)) i = Some tr ->
        addresses tr b -> in_slice W H i b)
  /\ (forall w camsys cams W H i c tr b,
        batch_ready w camsys cams W H ->
        fits_int W H i ->
        nth_error cams i = Some c -> own_extent c <= H * W * 3 ->
        nth_error (batch_threads (camsys_read w camsys)) i = Some tr ->
        addresses tr b -> in_slice W H i b)
  /\ (forall w camsys cams W H i c tr,
        batch_ready w camsys cams W H ->
        fits_int W H i ->
        nth_error cams i = Some c -> 0 <= H * W * 3 < own_extent c ->
        nth_error (batch_threads (camsys_read w camsys)) i = Some tr ->
        device_res w cams W H i = Some 0 \/ device_res w cams W H i = Some 4 ->
        exists b, addresses tr b /\ ~ in_slice W H i b).
Proof.
  split; [intros; eapply batch_args_nth; eassumption|].
  split.
  { intros o a. split; [reflexivity|]. split.
    - intros b; apply worker_addresses_range.
    - intros Hnone b; now apply worker_addresses_all. }
  split; [intros; eapply batch_worker_in_slice; eassumption|].
  split; [intros; eapply batch_worker_extent; eassumption|].
  intros w camsys cams W H i c tr Hready Hfit Hc Hext Htr Hres.
  exists (Z.of_nat i * H * W * 3 + H * W * 3).
  exact (batch_worker_escapes _ _ _ _ _ _ _ _ Hready Hfit Hc Hext Htr
           (last_stage_reached _ _ _ _ _ Hres)).
Qed.

Lemma worker_extent_from_own_size_witness :
  in_slice 640 480 2 1843200
  /\ (exists tr b,
        nth_error
          (batch_threads
             (camsys_read (sample_world (fun _ => all_ok)) mismatched_cams))
          0 = Some tr
        /\ addresses tr b /\ ~ in_slice 2 2 0 b).
Proof.
  destruct worker_extent_from_own_size as (_ & _ & Hin & _ & Hout).
  split.
  - assert (Htr : nth_error
                    (batch_threads
                       (camsys_read (sample_world (fun _ => all_ok))
                          three_cams)) 2
                  = Some [EvDQBUF 3;
                          EvConvertToARGB 0 2560 640 480
                            (fourcc (sample_cam 640 480));
                          EvQBUF 3 0;
                          EvARGBToRAW 2560 1843200 1920 640 480])
      by (vm_compute; reflexivity).
    apply (Hin (sample_world (fun _ => all_ok)) three_cams
               [sample_cam 640 480; sample_cam 640 480; sample_cam 640 480]
               640 480 2%nat (sample_cam 640 480) _ 1843200
               (three_cams_ready _) (three_cams_fit 2 ltac:(lia))
               eq_refl eq_refl eq_refl Htr).
    exists (EvARGBToRAW 2560 1843200 1920 640 480), 1843200,
      (1843200 + 480 * 1920).
    split; [do 3 right; left; reflexivity|].
    split; [reflexivity | lia].
  - assert (Htr : nth_error
                    (batch_threads
                       (camsys_read (sample_world (fun _ => all_ok))
                          mismatched_cams)) 0
                  = Some [EvDQBUF 3;
                          EvConvertToARGB 0 16 4 4 (fourcc (sample_cam 4 4));
                          EvQBUF 3 0; EvARGBToRAW 16 0 12 4 4])
      by (vm_compute; reflexivity).
    destruct (Hout (sample_world (fun _ => all_ok)) mismatched_cams
                [sample_cam 4 4; sample_cam 2 2] 2 2 0%nat (sample_cam 4 4) _
                mismatched_cams_ready (fits_int_small 0 ltac:(lia)) eq_refl
                ltac:(vm_compute; split; [discriminate | reflexivity]) Htr
                (or_introl eq_refl)) as (b & Hb & Hnot).
    eexists. exists b. split; [exact Htr|]. split; assumption.
Defined.

(** * Further properties *)

(** ** Starting and stopping *)

Ltac solve_calls :=
  cbn [fst snd In];
  try tauto;
  try (intros; discriminate);
  try (intros; reflexivity);
  try (split; intros; try discriminate; try tauto;
       repeat match goal with
              | H : _ \/ _ |- _ => destruct H
              | H : False |- _ => destruct H
              | H : _ /\ _ |- _ => destruct H
              end;
       try discriminate; try tauto; auto 6).

(** X1: [camera_start] succeeds exactly when opening, initialising and
    starting all return non-zero. When it fails, the device is closed
    exactly once, as the last call; when it succeeds, the calls are open,
    init, start and the device is not closed. Initialising is attempted
    only after a successful open, starting only after a successful
    initialisation. *)
Theorem camera_start_closes_on_failure (d : Driver) :
  (fst (camera_start d) = true <->
     open_ret d <> 0 /\ init_device_ret d <> 0 /\ start_ret d <> 0)
  /\ (fst (camera_start d) = false ->
        exists pre, snd (camera_start d) = pre ++ [CallClose]
          /\ existsb is_close pre = false)
  /\ (fst (camera_start d) = true ->
        snd (camera_start d) = [CallOpen; CallInit; CallStart])
  /\ (In CallInit (snd (camera_start d)) <-> open_ret d <> 0)
  /\ (In CallStart (snd (camera_start d)) <->
        open_ret d <> 0 /\ init_device_ret d <> 0).
Proof.
  unfold camera_start.
  destruct (Z.eqb_spec (open_ret d) 0) as [Ho | Ho];
    [|destruct (Z.eqb_spec (init_device_ret d) 0) as [Hi | Hi];
      [|destruct (Z.eqb_spec (start_ret d) 0) as [Hs | Hs]]];
    (split; [solve_calls|]);
    (split; [cbn [fst snd]; intros Hf|]).
  - exists [CallOpen]. split; reflexivity.
  - repeat (split; [solve_calls|]); solve_calls.
  - exists [CallOpen; CallInit]. split; reflexivity.
  - repeat (split; [solve_calls|]); solve_calls.
  - exists [CallOpen; CallInit; CallStart]. split; reflexivity.
  - repeat (split; [solve_calls|]); solve_calls.
  - discriminate Hf.
  - repeat (split; [solve_calls|]); solve_calls.
Qed.

(** X2: [camera_stop] makes the calls stop, uninit, close in this order
    and gives up at the first that returns 0. It succeeds exactly when all
    three return non-zero; the device is uninitialised only when stopping
    succeeded, and closed only when stopping and uninitialising both
    succeeded. *)
Theorem camera_stop_gives_up_at_first_failure (d : Driver) :
  (fst (camera_stop d) = true <->
     stop_ret d <> 0 /\ uninit_ret d <> 0 /\ close_ret d <> 0)
  /\ (exists n, (1 <= n <= 3)%nat
        /\ snd (camera_stop d) = firstn n [CallStop; CallUninit; CallClose])
  /\ (In CallUninit (snd (camera_stop d)) <-> stop_ret d <> 0)
  /\ (In CallClose (snd (camera_stop d)) <->
        stop_ret d <> 0 /\ uninit_ret d <> 0).
Proof.
  unfold camera_stop.
  destruct (Z.eqb_spec (stop_ret d) 0) as [Hs | Hs];
    [|destruct (Z.eqb_spec (uninit_ret d) 0) as [Hu | Hu];
      [|destruct (Z.eqb_spec (close_ret d) 0) as [Hc | Hc]]];
    (split; [solve_calls|]); cbn [fst snd].
  - split; [exists 1%nat; split; [lia | reflexivity]|].
    split; solve_calls.
  - split; [exists 2%nat; split; [lia | reflexivity]|].
    split; solve_calls.
  - split; [exists 3%nat; split; [lia | reflexivity]|].
    split; solve_calls.
  - split; [exists 3%nat; split; [lia | reflexivity]|].
    split; solve_calls.
Qed.

(** ** The initialiser *)

Lemma set_parsed_keeps (self : CameraObject) (a : InitArgs) :
  device (set_parsed self a) = device self
  /\ fourcc (set_parsed self a) = fourcc self
  /\ buffers (set_parsed self a) = buffers self
  /\ n_buffers (set_parsed self a) = n_buffers self
  /\ fd (set_parsed self a) = fd self.
Proof.
  unfold set_parsed. destruct (arg_size a) as [[w h]|]; cbn; auto.
Qed.

Lemma set_parsed_fields (self : CameraObject) (a : InitArgs) :
  width (set_parsed self a)
  = match arg_size a with Some wh => fst wh | None => width self end
  /\ height (set_parsed self a)
     = match arg_size a with Some wh => snd wh | None => height self end
  /\ fps (set_parsed self a)
     = match arg_fps a with Some f => f | None => fps self end
  /\ format (set_parsed self a)
     = match arg_format a with Some s => Some s | None => format self end.
Proof.
  unfold set_parsed. destruct (arg_size a) as [[w h]|]; cbn; auto.
Qed.

(** X3: the initialiser returns 0 or -1 and calls no device. When it
    returns 0 no error is pending and the object is left closed: file
    descriptor -1, no buffers, buffer count 0, whatever these were before.
    When it returns -1 an error is pending and the descriptor, the
    buffers, their count and the tag are as they were before. *)
Theorem Camera_init_resets_or_keeps (pack : Z -> Z -> Z -> Z -> Z)
    (char_signed : bool) (self : CameraObject) (args : option InitArgs) :
  let r := Camera_init pack char_signed self args in
  init_events r = []
  /\ (init_ret r = 0 \/ init_ret r = -1)
  /\ (init_ret r = 0 ->
        init_err r = None
        /\ fd (init_self r) = -1
        /\ buffers (init_self r) = None
        /\ n_buffers (init_self r) = 0)
  /\ (init_ret r = -1 ->
        init_err r <> None
        /\ fd (init_self r) = fd self
        /\ buffers (init_self r) = buffers self
        /\ n_buffers (init_self r) = n_buffers self
        /\ fourcc (init_self r) = fourcc self).
Proof.
  cbv zeta. unfold Camera_init.
  destruct args as [a|].
  - destruct (set_parsed_keeps self a) as (_ & Hf & Hb & Hn & Hd).
    cbn [format]. destruct (format (set_parsed self a)) as [s|].
    + destruct (negb (String.length s =? 4)%nat);
        cbn [init_events init_ret init_err init_self fd buffers n_buffers
             fourcc];
        rewrite ?Hf, ?Hb, ?Hn, ?Hd;
        repeat split; auto; try discriminate.
    + cbn [init_events init_ret init_err init_self fd buffers n_buffers
           fourcc].
      repeat split; auto; discriminate.
  - cbn. repeat split; auto; discriminate.
Qed.

(** X4: a rejected format code does not leave the object as it was: the
    device, the size and rate given and the rejected code itself have
    already been stored when the length check fails. *)
Theorem Camera_init_rejection_not_atomic (pack : Z -> Z -> Z -> Z -> Z)
    (char_signed : bool) (self : CameraObject) (a : InitArgs) (s : string) :
  arg_format a = Some s -> String.length s <> 4%nat ->
  let r := Camera_init pack char_signed self (Some a) in
  init_ret r = -1
  /\ device (init_self r) = Some (arg_device a)
  /\ format (init_self r) = Some s
  /\ (forall w h, arg_size a = Some (w, h) ->
        width (init_self r) = w /\ height (init_self r) = h)
  /\ (forall f, arg_fps a = Some f -> fps (init_self r) = f).
Proof.
  intros Hf Hlen r. subst r. rewrite (Camera_init_format _ _ _ _ _ Hf).
  destruct (Nat.eqb_spec (String.length s) 4) as [E | _]; [contradiction|].
  cbn [negb init_ret init_self device format width height fps].
  destruct (set_parsed_fields self a) as (Hw & Hh & Hp & _).
  repeat split.
  - rewrite Hw, H. reflexivity.
  - rewrite Hh, H. reflexivity.
  - intros f Ef. rewrite Hp, Ef. reflexivity.
Qed.

Lemma Camera_init_rejection_not_atomic_witness :
  let r := Camera_init FOURCC true new_camera (Some (init_with_format "RGB")) in
  init_ret r = -1
  /\ format (init_self r) = Some "RGB"%string
  /\ width (init_self r) = 640 /\ height (init_self r) = 480.
Proof.
  destruct (Camera_init_rejection_not_atomic FOURCC true new_camera
              (init_with_format "RGB") "RGB" eq_refl ltac:(discriminate))
    as (Hret & _ & Hfmt & Hsize & _).
  destruct (Hsize 640 480 eq_refl) as (Hw & Hh).
  repeat split; assumption.
Defined.

(** X5: arguments left out keep the fields as they were: without a size
    the width and height are unchanged, without a rate the rate is.
    Initialising an object that has no format without giving one succeeds
    with the tag 0. *)
Theorem Camera_init_omitted_arguments (pack : Z -> Z -> Z -> Z -> Z)
    (char_signed : bool) (self : CameraObject) (a : InitArgs) :
  let r := Camera_init pack char_signed self (Some a) in
  device (init_self r) = Some (arg_device a)
  /\ (arg_size a = None ->
        width (init_self r) = width self
        /\ height (init_self r) = height self)
  /\ (arg_fps a = None -> fps (init_self r) = fps self)
  /\ (arg_format a = None -> format self = None ->
        init_ret r = 0 /\ init_err r = None
        /\ format (init_self r) = None /\ fourcc (init_self r) = 0).
Proof.
  cbv zeta. unfold Camera_init.
  destruct (set_parsed_fields self a) as (Hw & Hh & Hp & Hfmt).
  cbn [format]. rewrite Hfmt.
  destruct (arg_format a) as [s|]; [|destruct (format self) as [s|]];
    try destruct (negb (String.length s =? 4)%nat);
    cbn [init_ret init_err init_self device width height fps format fourcc];
    rewrite Hw, Hh, Hp;
    (split; [reflexivity|]);
    (split; [intros E; rewrite E; split; reflexivity|]);
    (split; [intros E; rewrite E; reflexivity|]);
    intros; try congruence; repeat split.
Qed.

(** X6: initialising twice with the same arguments gives the same outcome
    and the same object as initialising once, accepted or rejected, provided
    a format is given or the object had none. *)
Theorem Camera_init_idempotent (pack : Z -> Z -> Z -> Z -> Z)
    (char_signed : bool) (self : CameraObject) (a : InitArgs) :
  (arg_format a = None -> format self = None) ->
  let r := Camera_init pack char_signed self (Some a) in
  Camera_init pack char_signed (init_self r) (Some a) = r.
Proof.
  intros Hfmt. cbv zeta. unfold Camera_init, set_parsed.
  destruct (arg_format a) as [s|] eqn:Ea.
  - destruct (arg_size a) as [[w h]|], (arg_fps a) as [f|];
      cbn [format width height fps device fourcc buffers n_buffers fd];
      destruct (negb (String.length s =? 4)%nat) eqn:El;
      cbn [init_self format width height fps device fourcc buffers
           n_buffers fd];
      rewrite ?El; reflexivity.
  - rewrite (Hfmt eq_refl).
    destruct (arg_size a) as [[w h]|], (arg_fps a) as [f|]; reflexivity.
Qed.

Lemma Camera_init_idempotent_witness :
  let r := Camera_init FOURCC true new_camera (Some (init_with_format "yuyv")) in
  Camera_init FOURCC true (init_self r) (Some (init_with_format "yuyv")) = r.
Proof.
  apply (Camera_init_idempotent FOURCC true new_camera
           (init_with_format "yuyv")).
  discriminate.
Defined.

(** ** Case of format codes *)

Lemma upper_ascii_7bit (c : ascii) :
  code c < 128 ->
  code (upper_ascii c) = toupper (code c) /\ code (upper_ascii c) < 128.
Proof.
  destruct c as [b0 b1 b2 b3 b4 b5 b6 b7].
  destruct b0, b1, b2, b3, b4, b5, b6, b7; intros H; vm_compute in H |- *;
    (discriminate H || (split; reflexivity)).
Qed.

Lemma code_injective (c c' : ascii) : code c = code c' -> c = c'.
Proof.
  unfold code. intros H. apply Nat2Z.inj in H.
  rewrite <- (ascii_nat_embedding c), <- (ascii_nat_embedding c').
  now rewrite H.
Qed.

Lemma char_at_upcase (s : string) (k : nat) :
  char_at (upcase s) k = upper_ascii (char_at s k).
Proof.
  revert k; induction s as [|c s IH]; intros k.
  - destruct k; reflexivity.
  - destruct k as [|k]; [reflexivity|]. exact (IH k).
Qed.

Lemma seven_bit_char_at (s : string) (k : nat) :
  seven_bit s = true -> code (char_at s k) < 128.
Proof.
  revert k; induction s as [|c s IH]; intros k H.
  - destruct k; reflexivity.
  - cbn [seven_bit] in H. apply andb_true_iff in H. destruct H as [Hc Hs].
    destruct k as [|k]; [now apply Z.ltb_lt in Hc|]. exact (IH k Hs).
Qed.

Lemma upcase_length (s : string) : String.length (upcase s) = String.length s.
Proof. induction s as [|c s IH]; cbn; [reflexivity | now rewrite IH]. Qed.

(** The tag of a 7-bit code, through the uppercased bytes. *)
Lemma STR2FOURCC_7bit (pack : Z -> Z -> Z -> Z -> Z) (char_signed : bool)
    (s : string) :
  seven_bit s = true ->
  STR2FOURCC pack char_signed s
  = pack (code (upper_ascii (char_at s 0))) (code (upper_ascii (char_at s 1)))
         (code (upper_ascii (char_at s 2))) (code (upper_ascii (char_at s 3))).
Proof.
  intros H. unfold STR2FOURCC.
  rewrite !char_value_7bit by now apply seven_bit_char_at.
  now rewrite !(proj1 (upper_ascii_7bit _ (seven_bit_char_at s _ H))).
Qed.

Lemma upcase_by_chars (s t : string) :
  String.length s = 4%nat -> String.length t = 4%nat ->
  (forall k, (k < 4)%nat ->
     upper_ascii (char_at s k) = upper_ascii (char_at t k)) ->
  upcase s = upcase t.
Proof.
  destruct s as [|a0 [|a1 [|a2 [|a3 [|a4 s]]]]]; try discriminate.
  destruct t as [|b0 [|b1 [|b2 [|b3 [|b4 t]]]]]; try discriminate.
  intros _ _ H.
  pose proof (H 0%nat ltac:(lia)) as H0. pose proof (H 1%nat ltac:(lia)) as H1.
  pose proof (H 2%nat ltac:(lia)) as H2. pose proof (H 3%nat ltac:(lia)) as H3.
  cbn in H0, H1, H2, H3. cbn [upcase]. now rewrite H0, H1, H2, H3.
Qed.

(** X7: format codes are case-insensitive and otherwise told apart: two
    codes of four 7-bit characters are given the same tag by the
    initialiser exactly when they are equal once uppercased. *)
Theorem format_tag_equal_iff_same_up_to_case (char_signed : bool)
    (self : CameraObject) (a : InitArgs) (s t : string) :
  String.length s = 4%nat -> String.length t = 4%nat ->
  seven_bit s = true -> seven_bit t = true ->
  (fourcc (init_self (Camera_init FOURCC char_signed self
                        (Some (with_format a s))))
   = fourcc (init_self (Camera_init FOURCC char_signed self
                          (Some (with_format a t))))
   <-> upcase s = upcase t).
Proof.
  intros Ls Lt Hs Ht.
  rewrite (Camera_init_format FOURCC char_signed self (with_format a s) s
             eq_refl),
    (Camera_init_format FOURCC char_signed self (with_format a t) t eq_refl).
  rewrite Ls, Lt. cbn [Nat.eqb negb init_self fourcc].
  rewrite (STR2FOURCC_7bit _ _ s Hs), (STR2FOURCC_7bit _ _ t Ht).
  split.
  - intros E. apply upcase_by_chars; try assumption.
    destruct (tag_byte_FOURCC _ _ _ _
                (code_range (upper_ascii (char_at s 0)))
                (code_range (upper_ascii (char_at s 1)))
                (code_range (upper_ascii (char_at s 2)))
                (code_range (upper_ascii (char_at s 3))))
      as (S0 & S1 & S2 & S3).
    destruct (tag_byte_FOURCC _ _ _ _
                (code_range (upper_ascii (char_at t 0)))
                (code_range (upper_ascii (char_at t 1)))
                (code_range (upper_ascii (char_at t 2)))
                (code_range (upper_ascii (char_at t 3))))
      as (T0 & T1 & T2 & T3).
    rewrite E in S0, S1, S2, S3.
    intros [|[|[|[|k]]]] Hk; apply code_injective; [congruence .. | lia].
  - intros E.
    assert (H : forall k, upper_ascii (char_at s k) = upper_ascii (char_at t k))
      by (intros k; now rewrite <- !char_at_upcase, E).
    now rewrite !H.
Qed.

Lemma format_tag_equal_iff_same_up_to_case_witness :
  fourcc (init_self (Camera_init FOURCC true new_camera
                       (Some (with_format (init_with_format "rgb3") "yuyv"))))
  = fourcc (init_self (Camera_init FOURCC true new_camera
                         (Some (with_format (init_with_format "rgb3") "YuYv")))).
Proof.
  apply (format_tag_equal_iff_same_up_to_case true new_camera
           (init_with_format "rgb3") "yuyv" "YuYv"); reflexivity.
Defined.

(** ** What a cycle does to the device and to the destination *)

(** The trace and the code of a cycle, by the stage that fails first. *)
Lemma worker_cases (o : Oracle) (a : CamReadWorkerArgStruct) :
  (worker_res o a = 1 /\ worker_trace o a = [ev_dequeue a])
  \/ (worker_res o a = 2 /\ worker_trace o a = [ev_dequeue a; ev_to_argb o a])
  \/ (worker_res o a = 3
      /\ worker_trace o a = [ev_dequeue a; ev_to_argb o a; ev_requeue o a])
  \/ ((worker_res o a = 4 \/ worker_res o a = 0)
      /\ worker_trace o a = stages o a).
Proof.
  rewrite worker_res_unfold, worker_trace_unfold. unfold stages_run.
  destruct (first_failed o) as [k|] eqn:E.
  - apply first_failed_range in E. destruct E as [Hk _].
    destruct k as [|[|[|[|[|k]]]]]; try lia; cbn; auto 10.
  - right; right; right. split; [now right | reflexivity].
Qed.

(** X8: a worker that leaves code 1, 2 or 3 has addressed no byte of its
    destination; a worker that leaves code 0 or 4 has addressed exactly the
    rows its camera's own width and height span from the destination
    address. *)
Theorem destination_untouched_before_last_stage
    (o : Oracle) (a : CamReadWorkerArgStruct) :
  (1 <= worker_res o a <= 3 -> forall b, ~ addresses (worker_trace o a) b)
  /\ (worker_res o a = 0 \/ worker_res o a = 4 ->
      forall b,
        addresses (worker_trace o a) b <->
        dst a <= b < dst a + height (cam a) * CInt.mul (width (cam a)) 3).
Proof.
  split.
  - intros Hr b (e & lo & hi & Hin & Hrange & _).
    destruct (worker_cases o a)
      as [(_ & Ht) | [(_ & Ht) | [(_ & Ht) | ([Hc | Hc] & _)]]];
      try lia;
      rewrite Ht in Hin; cbn in Hin;
      repeat (destruct Hin as [<- | Hin]; [discriminate Hrange|]);
      exact Hin.
  - intros Hr b. split; [apply worker_addresses_range|].
    intros Hb.
    destruct (worker_cases o a)
      as [(Hc & _) | [(Hc & _) | [(Hc & _) | (_ & Ht)]]]; try lia.
    rewrite Ht. exists (ev_to_raw a), (dst a),
      (dst a + height (cam a) * CInt.mul (width (cam a)) 3).
    split; [cbn; auto|]. split; [reflexivity | exact Hb].
Qed.

(** X9: every cycle begins with one dequeue on the camera's descriptor and
    dequeues exactly once. It requeues at most once, and exactly once when
    it leaves code 0, 3 or 4; a requeue is always of the buffer that was
    dequeued. *)
Theorem one_dequeue_at_most_one_requeue
    (o : Oracle) (a : CamReadWorkerArgStruct) :
  hd_error (worker_trace o a) = Some (EvDQBUF (fd (cam a)))
  /\ count_ev is_DQBUF (worker_trace o a) = 1%nat
  /\ (count_ev is_QBUF (worker_trace o a) <= 1)%nat
  /\ (count_ev is_QBUF (worker_trace o a) = 1%nat <->
      worker_res o a = 0 \/ worker_res o a = 3 \/ worker_res o a = 4)
  /\ (forall e i, In e (worker_trace o a) -> requeued_index e = Some i ->
        i = dqbuf_index o).
Proof.
  destruct (worker_cases o a)
    as [(Hc & Ht) | [(Hc & Ht) | [(Hc & Ht) | (Hc & Ht)]]];
    rewrite Ht; unfold count_ev; cbn;
    (split; [reflexivity|]); (split; [reflexivity|]); (split; [lia|]);
    (split; [split; [intros E; try discriminate E; lia | intros E; lia]|]);
    intros e i Hin Hi;
    repeat (destruct Hin as [<- | Hin];
            [cbn in Hi; congruence|]);
    contradiction.
Qed.

(** ** Returned value and pending error *)

(** X10: both reads keep to the calling convention of the runtime: they
    return nothing exactly when they leave an error pending, whatever the
    runtime and the devices answer. *)
Theorem result_or_error :
  (forall w camsys,
      batch_ret (camsys_read w camsys) = None <->
      batch_err (camsys_read w camsys) <> None)
  /\ (forall w self,
        read_ret (camera_read w self) = None <->
        read_err (camera_read w self) <> None).
Proof.
  split.
  - intros w camsys. unfold camsys_read.
    destruct (parse_ok w); cbn [negb];
      [|cbn; split; [discriminate | reflexivity]].
    destruct (cameras camsys) as [cams|];
      [|cbn; split; [discriminate | reflexivity]].
    destruct (_ <=? 0); [cbn; split; [discriminate | reflexivity]|].
    destruct (sys_width camsys);
      [|cbn; split; [discriminate | reflexivity]].
    destruct (sys_height camsys);
      [|cbn; split; [discriminate | reflexivity]].
    destruct (alloc_ok w); cbn [negb];
      [|cbn; split; [discriminate | reflexivity]].
    destruct (prepare_args _ _ _ _ _);
      [|cbn; split; [discriminate | reflexivity]].
    destruct (first_failure 0 _) as [[i r]|]; cbn;
      split; try discriminate; try reflexivity; intros H; now contradiction H.
  - intros w self. unfold camera_read.
    destruct (cam_read_worker _ _) as [a' tr].
    destruct (negb (res a' =? 0)); [cbn; split; [discriminate | reflexivity]|].
    destruct (alloc_ok w); cbn;
      split; try discriminate; try reflexivity; intros H; now contradiction H.
Qed.

(** ** Batches that stop before spawning *)

Lemma prepare_args_item_fails (w : World) (cams : list CameraObject) (sz : Z)
    (n i j : nat) :
  (i <= j < i + n)%nat -> getitem_ok w j = false ->
  prepare_args w cams sz i n = None.
Proof.
  revert i; induction n as [|n IH]; intros i Hj Hfail; [lia|].
  cbn [prepare_args].
  destruct (nth_error cams i); [|reflexivity].
  destruct (Nat.eq_dec i j) as [-> | Hne]; [now rewrite Hfail|].
  destruct (getitem_ok w i); [|reflexivity].
  now rewrite (IH (S i) ltac:(lia) Hfail).
Qed.

(** X11: when the arguments do not parse, an attribute is missing, the
    array cannot be allocated or some item of the sequence cannot be
    fetched, the batch read returns nothing with an error pending, has
    created no thread and has made no call to any device, even for the
    items it had already fetched. *)
Theorem batch_aborts_before_spawn (w : World) (camsys : CamSys) :
  parse_ok w = false
  \/ cameras camsys = None
  \/ sys_width camsys = None
  \/ sys_height camsys = None
  \/ alloc_ok w = false
  \/ (exists cams j,
        cameras camsys = Some cams
        /\ (j < Z.to_nat (int32 (Z.of_nat (List.length cams))))%nat
        /\ getitem_ok w j = false) ->
  batch_ret (camsys_read w camsys) = None
  /\ batch_err (camsys_read w camsys) <> None
  /\ batch_threads (camsys_read w camsys) = []
  /\ existsb is_create (batch_orch (camsys_read w camsys)) = false.
Proof.
  intros H. unfold camsys_read.
  destruct (parse_ok w) eqn:Ep; cbn [negb];
    [|cbn; repeat split; discriminate].
  destruct (cameras camsys) as [cams|] eqn:Ec;
    [|cbn; repeat split; discriminate].
  destruct (_ <=? 0); [cbn; repeat split; discriminate|].
  destruct (sys_width camsys) eqn:Ew; [|cbn; repeat split; discriminate].
  destruct (sys_height camsys) eqn:Eh; [|cbn; repeat split; discriminate].
  destruct (alloc_ok w) eqn:Ea; cbn [negb];
    [|cbn; repeat split; discriminate].
  destruct H as [H | [H | [H | [H | [H | H]]]]]; try discriminate.
  destruct H as (cams' & j & [= <-] & Hj & Hfail).
  rewrite (prepare_args_item_fails w cams _
             (Z.to_nat (int32 (Z.of_nat (List.length cams)))) 0 j
             ltac:(lia) Hfail).
  cbn. repeat split; discriminate.
Qed.

Lemma batch_aborts_before_spawn_witness :
  batch_ret (camsys_read (item_fails 1 (fun _ => all_ok)) three_cams) = None
  /\ batch_threads (camsys_read (item_fails 1 (fun _ => all_ok)) three_cams)
     = [].
Proof.
  destruct (batch_aborts_before_spawn (item_fails 1 (fun _ => all_ok))
              three_cams) as (Hret & _ & Hth & _).
  - do 5 right.
    exists [sample_cam 640 480; sample_cam 640 480; sample_cam 640 480],
      1%nat.
    split; [reflexivity|]. split; [vm_compute; lia | reflexivity].
  - split; assumption.
Defined.

(** ** Every device of a batch runs *)

Lemma worker_trace_head (o : Oracle) (a : CamReadWorkerArgStruct) :
  hd_error (worker_trace o a) = Some (EvDQBUF (fd (cam a))).
Proof.
  destruct (worker_cases o a)
    as [(_ & Ht) | [(_ & Ht) | [(_ & Ht) | (_ & Ht)]]];
    rewrite Ht; reflexivity.
Qed.

(** X12: a batch that reaches its workers runs one worker per device,
    whatever the other workers report: there are as many worker traces as
    devices, the trace of device [i] is that of a cycle on camera [i] with
    the collaborators of device [i] and the address of slice [i], and it
    begins with a dequeue on that camera's descriptor. A device that fails
    does not keep the later ones from being dequeued. *)
Theorem every_device_runs (w : World) (camsys : CamSys)
    (cams : list CameraObject) (W H : Z) :
  batch_ready w camsys cams W H ->
  let r := camsys_read w camsys in
  List.length (batch_threads r) = List.length cams
  /\ (forall i c, nth_error cams i = Some c ->
        exists tr,
          nth_error (batch_threads r) i = Some tr
          /\ tr = worker_trace (oracle w i)
                    (mkWorkerArgs c
                       (CInt.mul (Z.of_nat i) (cam_dst_sz W H)) 0)
          /\ hd_error tr = Some (EvDQBUF (fd c)))
  /\ (forall i c, nth_error cams i = Some c ->
        exists a,
          nth_error (batch_args r) i = Some a
          /\ res a = worker_res (oracle w i)
                       (mkWorkerArgs c
                          (CInt.mul (Z.of_nat i) (cam_dst_sz W H)) 0)).
Proof.
  intros Hready r. subst r.
  destruct (batch_ready_exit _ _ _ _ _ Hready) as (Hth & Hargs).
  rewrite Hth, Hargs. split; [|split].
  - now rewrite length_map, run_threads_length, slice_args_length.
  - intros i c Hc. rewrite batch_trace_nth. unfold device_trace. rewrite Hc.
    eexists. split; [reflexivity|]. split; [reflexivity|].
    apply worker_trace_head.
  - intros i c Hc. rewrite nth_error_map, run_threads_nth, Hc.
    cbn [Nat.add option_map]. eexists. split; reflexivity.
Qed.

Lemma every_device_runs_witness :
  exists tr,
    nth_error
      (batch_threads (camsys_read (sample_world (fun _ => dequeue_fails))
                        three_cams)) 2 = Some tr
    /\ hd_error tr = Some (EvDQBUF 3).
Proof.
  destruct (every_device_runs (sample_world (fun _ => dequeue_fails))
              three_cams _ 640 480 (three_cams_ready _)) as (_ & Hrun & _).
  destruct (Hrun 2%nat (sample_cam 640 480) eq_refl) as (tr & Hn & _ & Hd).
  exists tr. split; [exact Hn | exact Hd].
Defined.

(** ** The single-device read *)

Lemma camera_read_unfold (w : World) (self : CameraObject) :
  camera_read w self =
  let a := mkWorkerArgs self 0 0 in
  let r := worker_res (oracle w 0%nat) a in
  let tr := worker_trace (oracle w 0%nat) a in
  if negb (r =? 0) then
    mkReadResult None (Some (PyExc_RuntimeError, read_msg r))
      ([OCreate 0; OJoin 0] ++ [ORaise (PyExc_RuntimeError, read_msg r)]) tr
  else if alloc_ok w then
    mkReadResult
      (Some (PyArray_New 3 [height self; width self; 3] NPY_UINT8
               (Some 0) true))
      None [OCreate 0; OJoin 0] tr
  else
    mkReadResult None
      (Some (PyExc_RuntimeError, ("PyArray_NEW failed" ++ nl)%string))
      ([OCreate 0; OJoin 0]
         ++ [ORaise (PyExc_RuntimeError, ("PyArray_NEW failed" ++ nl)%string)])
      tr.
Proof.
  unfold camera_read, worker_res, worker_trace.
  destruct (cam_read_worker _ _) as [a' tr]. reflexivity.
Qed.

(** X13: a single-device read whose worker leaves code 0 returns, when the
    array can be created, an array of 3 dimensions [height; width; 3] of
    unsigned 8-bit elements, with no error pending; it has created one
    thread, joined it, and run one complete cycle on the camera, writing
    at the start of the buffer. *)
Theorem camera_read_success_shape (w : World) (self : CameraObject) :
  worker_res (oracle w 0%nat) (mkWorkerArgs self 0 0) = 0 ->
  alloc_ok w = true ->
  let r := camera_read w self in
  (exists arr,
      read_ret r = Some arr
      /\ nd arr = 3%nat
      /\ dims arr = [height self; width self; 3]
      /\ typenum arr = NPY_UINT8)
  /\ read_err r = None
  /\ read_orch r = [OCreate 0; OJoin 0]
  /\ read_events r = stages (oracle w 0%nat) (mkWorkerArgs self 0 0).
Proof.
  intros Hres Halloc r. subst r. rewrite camera_read_unfold. cbv zeta.
  rewrite Hres, Halloc. cbn [Z.eqb negb read_ret read_err read_orch read_events].
  split; [eexists; split; [reflexivity|]; repeat split|].
  repeat split.
  destruct (worker_cases (oracle w 0%nat) (mkWorkerArgs self 0 0))
    as [(Hc & _) | [(Hc & _) | [(Hc & _) | (_ & Ht)]]]; try lia.
  exact Ht.
Qed.

Lemma camera_read_success_shape_witness :
  exists arr,
    read_ret (camera_read (sample_world (fun _ => all_ok)) (sample_cam 640 480))
    = Some arr
    /\ dims arr = [480; 640; 3] /\ typenum arr = NPY_UINT8.
Proof.
  destruct (camera_read_success_shape (sample_world (fun _ => all_ok))
              (sample_cam 640 480) eq_refl eq_refl)
    as ((arr & Hret & _ & Hdims & Htype) & _).
  exists arr. repeat split; assumption.
Defined.

(** X14: when the worker leaves code 0 but the array cannot be created,
    the single-device read returns nothing and raises a [RuntimeError]
    that carries no code, after the complete cycle has run: the frame has
    been dequeued, converted and requeued, and is lost. *)
Theorem camera_read_array_failure (w : World) (self : CameraObject) :
  worker_res (oracle w 0%nat) (mkWorkerArgs self 0 0) = 0 ->
  alloc_ok w = false ->
  let r := camera_read w self in
  read_ret r = None
  /\ read_err r
     = Some (PyExc_RuntimeError, ("PyArray_NEW failed" ++ nl)%string)
  /\ read_events r = stages (oracle w 0%nat) (mkWorkerArgs self 0 0)
  /\ count_ev is_QBUF (read_events r) = 1%nat.
Proof.
  intros Hres Halloc r. subst r. rewrite camera_read_unfold. cbv zeta.
  rewrite Hres, Halloc. cbn [Z.eqb negb read_ret read_err read_events].
  split; [reflexivity|]. split; [reflexivity|].
  destruct (worker_cases (oracle w 0%nat) (mkWorkerArgs self 0 0))
    as [(Hc & _) | [(Hc & _) | [(Hc & _) | (_ & Ht)]]]; try lia.
  rewrite Ht. split; reflexivity.
Qed.

Lemma camera_read_array_failure_witness :
  read_err (camera_read (no_memory (fun _ => all_ok)) (sample_cam 640 480))
  = Some (PyExc_RuntimeError, ("PyArray_NEW failed" ++ nl)%string).
Proof.
  destruct (camera_read_array_failure (no_memory (fun _ => all_ok))
              (sample_cam 640 480) eq_refl eq_refl) as (_ & Herr & _).
  exact Herr.
Defined.

(** ** A batch of one *)

Lemma single_cam_ready (w : World) (c : CameraObject) :
  parse_ok w = true -> alloc_ok w = true -> getitem_ok w 0%nat = true ->
  in_int (width c) -> in_int (height c) ->
  batch_ready w (single_cam c) [c] (width c) (height c).
Proof.
  intros Hp Ha Hg Hw Hh. unfold batch_ready, single_cam.
  cbn [cameras sys_width sys_height List.length].
  split; [exact Hp|]. split; [reflexivity|]. split; [discriminate|].
  split; [unfold INT_MAX; change (2 ^ 31) with 2147483648; lia|].
  split; [reflexivity|]. split; [exact Hw|].
  split; [reflexivity|]. split; [exact Hh|].
  split; [exact Ha|].
  intros [|i] Hi; [exact Hg | lia].
Qed.

(** X15: a batch read over a single camera, with that camera's own width
    and height, makes the same calls on the device as a single-device read
    of that camera, fails exactly when that read fails, and on success
    returns the same frame shape with one more leading dimension of
    extent 1. *)
Theorem single_batch_matches_read (w : World) (c : CameraObject) :
  parse_ok w = true -> alloc_ok w = true -> getitem_ok w 0%nat = true ->
  in_int (width c) -> in_int (height c) ->
  let b := camsys_read w (single_cam c) in
  let r := camera_read w c in
  batch_threads b = [read_events r]
  /\ (batch_ret b = None <-> read_ret r = None)
  /\ (forall arr, read_ret r = Some arr ->
        batch_ret b = Some (mkArray 4 (1 :: dims arr) (typenum arr) true)).
Proof.
  intros Hp Ha Hg Hw Hh b r. subst b r.
  rewrite (camsys_read_ready _ _ _ _ _ (single_cam_ready w c Hp Ha Hg Hw Hh)).
  rewrite camera_read_unfold. cbv zeta.
  cbn [slice_args run_threads map List.length Z.of_nat first_failure].
  change (CInt.mul 0 (cam_dst_sz (width c) (height c))) with 0.
  unfold worker_res, worker_trace.
  destruct (cam_read_worker (oracle w 0%nat) (mkWorkerArgs c 0 0)) as [a' tr].
  cbn [fst snd]. rewrite Ha.
  destruct (negb (res a' =? 0)); cbn.
  - split; [reflexivity|]. split; [tauto | discriminate].
  - split; [reflexivity|]. split; [split; discriminate|].
    intros arr [= <-]. reflexivity.
Qed.

Lemma single_batch_matches_read_witness :
  batch_threads (camsys_read (sample_world (fun _ => to_raw_fails))
                   (single_cam (sample_cam 640 480)))
  = [read_events (camera_read (sample_world (fun _ => to_raw_fails))
                    (sample_cam 640 480))].
Proof.
  destruct (single_batch_matches_read (sample_world (fun _ => to_raw_fails))
              (sample_cam 640 480) eq_refl eq_refl eq_refl
              ltac:(unfold in_int, INT_MIN, INT_MAX; cbn; lia)
              ltac:(unfold in_int, INT_MIN, INT_MAX; cbn; lia))
    as (Hth & _).
  exact Hth.
Defined.

(** ** What a batch lets go of *)

(** X16: when a worker of a batch fails, the call gives back the two
    blocks it allocated and the three attributes it fetched, but the result
    array is neither returned nor released. *)
Theorem failed_batch_keeps_array (w : World) (camsys : CamSys)
    (cams : list CameraObject) (W H : Z) :
  batch_ready w camsys cams W H ->
  (exists i r, device_res w cams W H i = Some r /\ r <> 0) ->
  batch_ret (camsys_read w camsys) = None
  /\ batch_released (camsys_read w camsys)
     = [RThreads; RCamArgs; RCams; RWidth; RHeight]
  /\ ~ In RArr (batch_released (camsys_read w camsys)).
Proof.
  intros Hready Hfail.
  destruct (batch_failure_report _ _ _ _ _ Hready Hfail)
    as (k & r & _ & _ & _ & Hret & _).
  split; [exact Hret|].
  assert (Hrel : batch_released (camsys_read w camsys)
                 = [RThreads; RCamArgs; RCams; RWidth; RHeight]).
  { rewrite (camsys_read_ready _ _ _ _ _ Hready). cbv zeta.
    destruct (first_failure 0 _) as [[i x]|]; reflexivity. }
  split; [exact Hrel|]. rewrite Hrel.
  intros [E | [E | [E | [E | [E | []]]]]]; discriminate.
Qed.

Lemma failed_batch_keeps_array_witness :
  batch_ret (camsys_read (sample_world device1_fails) three_cams) = None
  /\ ~ In RArr
        (batch_released (camsys_read (sample_world device1_fails) three_cams)).
Proof.
  destruct (failed_batch_keeps_array (sample_world device1_fails) three_cams
              _ 640 480 (three_cams_ready device1_fails))
    as (Hret & _ & Hkeep).
  - exists 1%nat, 2. split; [reflexivity | discriminate].
  - split; assumption.
Defined.
